(** * FastTrack: the calendar fast-entry component

    A shallow embedding of the [CalendarFastEntry] React component: the
    manual-entry duration calculator and submit handler, and the live
    fasting timer (load, start, pause, resume, stop, note update, and the
    one-second refresh interval).

    The repository holds two copies of the component.  They agree on the
    live timer and differ in the manual-entry code:
    - [src/unnamed/part_001] adjusts the end date for overnight fasts
      (module [Part001]);
    - [src/src/components/CalendarFastEntry.tsx] has no such adjustment
      (module [Components]).

    Modelling conventions.
    - A JavaScript [Date] is its time value: milliseconds on the local
      clock, in a zone with a constant offset (no daylight-saving shifts).
      Only valid dates are modelled.
    - [number]s that hold hours and seconds are integers ([Z]); the
      [total] field of a duration, a quotient by 60, is a rational ([Q]).
    - React state is a record; a state setter is an update applied to the
      record and logged in the trace of effects, so that the order of
      backend calls and state changes can be stated.
    - [async] handlers are run to completion; the outcome of each awaited
      call (resolve or reject) is an argument of the handler. *)

From Stdlib Require Import ZArith List String Bool Lia QArith.
From Stdlib Require Import Ascii DecimalString Qround.
Import ListNotations.
Local Open Scope Z_scope.

(** ** JavaScript dates and the date-fns differences *)

Module JSDate.

Definition Date := Z.

Definition msPerSecond : Z := 1000.
Definition msPerMinute : Z := 60000.
Definition msPerHour : Z := 3600000.
Definition msPerDay : Z := 86400000.

(** ECMAScript [Day(t)] and [TimeWithinDay(t)] on local time. *)
Definition Day (t : Date) : Z := t / msPerDay.
Definition TimeWithinDay (t : Date) : Z := t mod msPerDay.

(** Day of the month (1..31) of a day number counted from 1970-01-01,
    in the proleptic Gregorian calendar. *)
Definition dayOfMonth (day : Z) : Z :=
  let z := day + 719468 in
  let era := z / 146097 in
  let doe := z - era * 146097 in
  let yoe := (doe - doe / 1460 + doe / 36524 - doe / 146096) / 365 in
  let doy := doe - (365 * yoe + yoe / 4 - yoe / 100) in
  let mp := (5 * doy + 2) / 153 in
  doy - (153 * mp + 2) / 5 + 1.

(** [new Date(d)]: a copy with the same time value. *)
Definition newDate (d : Date) : Date := d.

(** [d.getTime()] / [d.valueOf()], used by the relational operators. *)
Definition valueOf (d : Date) : Z := d.

(** [d.setHours(h, m, s, ms)]: same local day, new time within the day
    (values out of range carry into the neighbouring days).  The local
    clock has a constant offset: where the zone shifts its clock, the
    program's time values differ from these by the shift. *)
Definition setHours (d : Date) (h m s ms : Z) : Date :=
  Day d * msPerDay + (h * msPerHour + m * msPerMinute + s * msPerSecond + ms).

(** [d.getDate()]. *)
Definition getDate (d : Date) : Z := dayOfMonth (Day d).

(** [d.setDate(n)]: the day [n] of the month of [d], which lies
    [n - getDate d] days from [d]; the time within the day is kept and
    a day past the end of the month carries into the next month.  On
    the constant-offset clock a day is always 86400000 ms. *)
Definition setDate (d : Date) (n : Z) : Date :=
  (Day d - getDate d + n) * msPerDay + TimeWithinDay d.

(** [d.toDateString()] names the local calendar day (week day, month,
    day of month, year).  The component only compares two such strings
    for equality; the string is represented by the day it names. *)
Definition DateString := Z.
Definition toDateString (d : Date) : DateString := Day d.

(** date-fns: differences truncated towards zero. *)
Definition differenceInMilliseconds (l r : Date) : Z := valueOf l - valueOf r.
Definition differenceInHours (l r : Date) : Z :=
  Z.quot (differenceInMilliseconds l r) msPerHour.
Definition differenceInMinutes (l r : Date) : Z :=
  Z.quot (differenceInMilliseconds l r) msPerMinute.
Definition differenceInSeconds (l r : Date) : Z :=
  Z.quot (differenceInMilliseconds l r) msPerSecond.

(** [a <= b] on two dates compares the time values. *)
Definition date_le (a b : Date) : bool := valueOf a <=? valueOf b.

(** Midnight at the start of a day number, and a day with an hour. *)
Definition atDay (day : Z) : Date := day * msPerDay.
Definition atHour (day h : Z) : Date := day * msPerDay + h * msPerHour.

End JSDate.
Import JSDate.

(** ** Component state *)

Record State := mkState {
  (* manual entry *)
  startDate : Date;
  endDate : Date;
  startHour : Z;
  endHour : Z;
  showStartCalendar : bool;
  showEndCalendar : bool;
  notes : string;
  (* live timer *)
  isTimerActive : bool;
  timerStartTime : option Date;
  elapsedSeconds : Z;
  isPaused : bool;
  timerNotes : string;
  isLoading : bool
}.

(** The state of a freshly mounted component: every [useState] initial
    value, with [now] the clock at the first render. *)
Definition initialState (now : Date) : State :=
  {| startDate := now; endDate := now; startHour := 20; endHour := 12;
     showStartCalendar := false; showEndCalendar := false; notes := "";
     isTimerActive := false; timerStartTime := None; elapsedSeconds := 0;
     isPaused := false; timerNotes := ""; isLoading := false |}.

(** What [calculateDuration] returns: the number [0], or a record. *)
Inductive Duration :=
| DZero
| DRecord (hours minutes : Z) (total : Q).

(** The record built on the success path of [calculateDuration]. *)
Definition durationRecord (start end_ : Date) : Duration :=
  let hours := differenceInHours end_ start in
  let minutes := Z.rem (differenceInMinutes end_ start) 60 in
  DRecord hours minutes (inject_Z hours + inject_Z minutes / 60)%Q.

(** ** Effects: state setters, backend calls, callbacks, dialogs *)

(** The body of [apiService.updateTimer]: each field may be absent;
    [pausedAt] may also be [null]. *)
Record TimerPatch := mkPatch {
  patch_isPaused : option bool;
  patch_pausedAt : option (option Date);
  patch_notes : option string
}.

(** What [apiService.getTimer] resolves to when a timer is stored. *)
Record TimerData := mkTimerData {
  td_startTime : Date;
  td_isPaused : bool;
  td_pausedAt : option Date;
  td_notes : option string
}.

Inductive ApiCall :=
| getTimer (userId : string)
| startTimer (userId : string) (startTime : Date) (notes : string)
| updateTimer (userId : string) (patch : TimerPatch)
| deleteTimer (userId : string).

Inductive Setter :=
| setStartDate (d : Date)
| setEndDate (d : Date)
| setStartHour (h : Z)
| setEndHour (h : Z)
| setNotes (n : string)
| setIsTimerActive (b : bool)
| setTimerStartTime (t : option Date)
| setElapsedSeconds (n : Z)
| setIsPaused (b : bool)
| setTimerNotes (n : string)
| setIsLoading (b : bool).

Definition applySetter (u : Setter) (s : State) : State :=
  match u with
  | setStartDate d =>
      mkState d (endDate s) (startHour s) (endHour s) (showStartCalendar s)
        (showEndCalendar s) (notes s) (isTimerActive s) (timerStartTime s)
        (elapsedSeconds s) (isPaused s) (timerNotes s) (isLoading s)
  | setEndDate d =>
      mkState (startDate s) d (startHour s) (endHour s) (showStartCalendar s)
        (showEndCalendar s) (notes s) (isTimerActive s) (timerStartTime s)
        (elapsedSeconds s) (isPaused s) (timerNotes s) (isLoading s)
  | setStartHour h =>
      mkState (startDate s) (endDate s) h (endHour s) (showStartCalendar s)
        (showEndCalendar s) (notes s) (isTimerActive s) (timerStartTime s)
        (elapsedSeconds s) (isPaused s) (timerNotes s) (isLoading s)
  | setEndHour h =>
      mkState (startDate s) (endDate s) (startHour s) h (showStartCalendar s)
        (showEndCalendar s) (notes s) (isTimerActive s) (timerStartTime s)
        (elapsedSeconds s) (isPaused s) (timerNotes s) (isLoading s)
  | setNotes n =>
      mkState (startDate s) (endDate s) (startHour s) (endHour s)
        (showStartCalendar s) (showEndCalendar s) n (isTimerActive s)
        (timerStartTime s) (elapsedSeconds s) (isPaused s) (timerNotes s)
        (isLoading s)
  | setIsTimerActive b =>
      mkState (startDate s) (endDate s) (startHour s) (endHour s)
        (showStartCalendar s) (showEndCalendar s) (notes s) b
        (timerStartTime s) (elapsedSeconds s) (isPaused s) (timerNotes s)
        (isLoading s)
  | setTimerStartTime t =>
      mkState (startDate s) (endDate s) (startHour s) (endHour s)
        (showStartCalendar s) (showEndCalendar s) (notes s) (isTimerActive s)
        t (elapsedSeconds s) (isPaused s) (timerNotes s) (isLoading s)
  | setElapsedSeconds n =>
      mkState (startDate s) (endDate s) (startHour s) (endHour s)
        (showStartCalendar s) (showEndCalendar s) (notes s) (isTimerActive s)
        (timerStartTime s) n (isPaused s) (timerNotes s) (isLoading s)
  | setIsPaused b =>
      mkState (startDate s) (endDate s) (startHour s) (endHour s)
        (showStartCalendar s) (showEndCalendar s) (notes s) (isTimerActive s)
        (timerStartTime s) (elapsedSeconds s) b (timerNotes s) (isLoading s)
  | setTimerNotes n =>
      mkState (startDate s) (endDate s) (startHour s) (endHour s)
        (showStartCalendar s) (showEndCalendar s) (notes s) (isTimerActive s)
        (timerStartTime s) (elapsedSeconds s) (isPaused s) n (isLoading s)
  | setIsLoading b =>
      mkState (startDate s) (endDate s) (startHour s) (endHour s)
        (showStartCalendar s) (showEndCalendar s) (notes s) (isTimerActive s)
        (timerStartTime s) (elapsedSeconds s) (isPaused s) (timerNotes s) b
  end.

Inductive Event :=
| EvSet (u : Setter)
| EvApi (c : ApiCall)
| EvOnAddFast (startTime endTime : Date) (notes : string)
| EvAlert (msg : string)
| EvConsoleLog (msg : string)
| EvConsoleError (msg : string)
| EvPreventDefault.

Definition Error := string.

(** How a call ends: it returns (a promise resolves), or it throws
    (a promise rejects). *)
Inductive Outcome (A : Type) :=
| Resolved (a : A)
| Rejected (e : Error).
Arguments Resolved {A} a.
Arguments Rejected {A} e.

Record World := mkWorld {
  w_state : State;
  w_trace : list Event
}.

(** Computations that change the component state, log their effects and
    may throw. *)
Definition M (A : Type) : Type := World -> Outcome A * World.

Definition ret {A} (a : A) : M A := fun w => (Resolved a, w).

Definition bind {A B} (c : M A) (k : A -> M B) : M B :=
  fun w =>
    match c w with
    | (Resolved a, w') => k a w'
    | (Rejected e, w') => (Rejected e, w')
    end.

Declare Scope js_scope.
Delimit Scope js_scope with js.
Notation "x <- c ;; k" := (bind c (fun x => k))
  (at level 61, c at next level, right associativity) : js_scope.
Notation "c ;; k" := (bind c (fun _ => k))
  (at level 61, right associativity) : js_scope.

Definition emit (e : Event) : M unit :=
  fun w => (Resolved tt, mkWorld (w_state w) (w_trace w ++ [e])).

Definition set (u : Setter) : M unit :=
  fun w => (Resolved tt,
            mkWorld (applySetter u (w_state w)) (w_trace w ++ [EvSet u])).

(** A call whose outcome the environment decides: the call is logged
    and ends as the environment says. *)
Definition call {A} (e : Event) (r : Outcome A) : M A :=
  fun w => (r, mkWorld (w_state w) (w_trace w ++ [e])).

(** [try { body } catch (error) { handler } finally { fin }]. *)
Definition try_catch_finally (body : M unit) (handler : Error -> M unit)
    (fin : M unit) : M unit :=
  fun w =>
    let (r1, w1) := body w in
    let (r2, w2) := match r1 with
                    | Resolved _ => (r1, w1)
                    | Rejected e => handler e w1
                    end in
    let (r3, w3) := fin w2 in
    match r3 with
    | Resolved _ => (r2, w3)
    | Rejected e => (Rejected e, w3)
    end.

(** [try { body } catch (error) { handler }]. *)
Definition try_catch (body : M unit) (handler : Error -> M unit) : M unit :=
  fun w =>
    match body w with
    | (Resolved a, w1) => (Resolved a, w1)
    | (Rejected e, w1) => handler e w1
    end.

(** Runs a handler whose closure holds the state [s], from that state. *)
Definition run {A} (c : M A) (s : State) : Outcome A * World :=
  c (mkWorld s []).

Definition finalState {A} (x : Outcome A * World) : State := w_state (snd x).
Definition effects {A} (x : Outcome A * World) : list Event := w_trace (snd x).
Definition outcome {A} (x : Outcome A * World) : Outcome A := fst x.

(** ** Manual entry, [src/unnamed/part_001] *)

Module Part001.
Local Open Scope js_scope.

Definition computedStart (s : State) : Date :=
  setHours (newDate (startDate s)) (startHour s) 0 0 0.

(** The local [end] of [calculateDuration] and [handleSubmit] at the
    point where it is compared with [start]. *)
Definition computedEnd (s : State) : Date :=
  let end_ := setHours (newDate (endDate s)) (endHour s) 0 0 0 in
  if (toDateString (startDate s) =? toDateString (endDate s))
     && (endHour s <? startHour s)
  then setDate end_ (getDate end_ + 1)
  else end_.

Definition calculateDuration (s : State) : Duration :=
  let start := computedStart s in
  let end_ := computedEnd s in
  if date_le end_ start then DZero
  else durationRecord start end_.

(** [addResp] is how the call of [onAddFast] ends; [now1] and [now2]
    are the clock at the two [new Date()] of the reset. *)
Definition handleSubmit (s : State) (addResp : Outcome unit)
    (now1 now2 : Date) : M unit :=
  emit EvPreventDefault ;;
  let start := setHours (newDate (startDate s)) (startHour s) 0 0 0 in
  let end_ := setHours (newDate (endDate s)) (endHour s) 0 0 0 in
  let end_ :=
    if (toDateString (startDate s) =? toDateString (endDate s))
       && (endHour s <? startHour s)
    then setDate end_ (getDate end_ + 1)
    else end_ in
  if date_le end_ start then
    emit (EvAlert "End time must be after start time")
  else
    call (EvOnAddFast start end_ (notes s)) addResp ;;
    set (setStartDate now1) ;;
    set (setEndDate now2) ;;
    set (setStartHour 20) ;;
    set (setEndHour 12) ;;
    set (setNotes "").

End Part001.

(** ** Manual entry, [src/src/components/CalendarFastEntry.tsx] *)

Module Components.
Local Open Scope js_scope.

Definition computedStart (s : State) : Date :=
  setHours (newDate (startDate s)) (startHour s) 0 0 0.

Definition computedEnd (s : State) : Date :=
  setHours (newDate (endDate s)) (endHour s) 0 0 0.

Definition calculateDuration (s : State) : Duration :=
  let start := computedStart s in
  let end_ := computedEnd s in
  if date_le end_ start then DZero
  else durationRecord start end_.

Definition handleSubmit (s : State) (addResp : Outcome unit)
    (now1 now2 : Date) : M unit :=
  emit EvPreventDefault ;;
  let start := setHours (newDate (startDate s)) (startHour s) 0 0 0 in
  let end_ := setHours (newDate (endDate s)) (endHour s) 0 0 0 in
  if date_le end_ start then
    emit (EvAlert "End time must be after start time")
  else
    call (EvOnAddFast start end_ (notes s)) addResp ;;
    set (setStartDate now1) ;;
    set (setEndDate now2) ;;
    set (setStartHour 20) ;;
    set (setEndHour 12) ;;
    set (setNotes "").

End Components.

(** A manual-entry form on day [D] with the given hours. *)
Definition formAt (dStart dEnd : Z) (hStart hEnd : Z) : State :=
  {| startDate := atDay dStart; endDate := atDay dEnd;
     startHour := hStart; endHour := hEnd;
     showStartCalendar := false; showEndCalendar := false; notes := "";
     isTimerActive := false; timerStartTime := None; elapsedSeconds := 0;
     isPaused := false; timerNotes := ""; isLoading := false |}.

(** ** The live timer handlers (the same text in both copies)

    Each handler reads the state of the render it was created in, [s],
    and the property [userId]. *)

Section Handlers.
Local Open Scope js_scope.
Variable userId : string.

Definition loadTimerFromBackend
    (resp : Outcome (option TimerData)) (now : Date) : M unit :=
  try_catch_finally
    (set (setIsLoading true) ;;
     timerData <- call (EvApi (getTimer userId)) resp ;;
     match timerData with
     | Some td =>
         let startTime := newDate (td_startTime td) in
         set (setTimerStartTime (Some startTime)) ;;
         set (setIsTimerActive true) ;;
         set (setIsPaused (td_isPaused td)) ;;
         set (setTimerNotes (match td_notes td with
                             | Some n => n
                             | None => ""%string
                             end)) ;;
         (if negb (td_isPaused td) then
            set (setElapsedSeconds (differenceInSeconds now startTime))
          else
            match td_pausedAt td with
            | Some p =>
                set (setElapsedSeconds
                       (differenceInSeconds (newDate p) startTime))
            | None => ret tt
            end) ;;
         emit (EvConsoleLog "Timer state loaded from backend")
     | None => ret tt
     end)
    (fun error => emit (EvConsoleError "Failed to load timer from backend:"))
    (set (setIsLoading false)).

Definition handleStartTimer (s : State) (now : Date) (resp : Outcome unit)
  : M unit :=
  try_catch_finally
    (set (setIsLoading true) ;;
     call (EvApi (startTimer userId now (timerNotes s))) resp ;;
     set (setTimerStartTime (Some now)) ;;
     set (setIsTimerActive true) ;;
     set (setIsPaused false) ;;
     set (setElapsedSeconds 0) ;;
     emit (EvConsoleLog "Timer started and saved to backend"))
    (fun error =>
       emit (EvConsoleError "Failed to start timer:") ;;
       emit (EvAlert "Failed to start timer. Please try again."))
    (set (setIsLoading false)).

Definition handlePauseTimer (s : State) (now : Date) (resp : Outcome unit)
  : M unit :=
  try_catch_finally
    (set (setIsLoading true) ;;
     let pausedAt := now in
     call (EvApi (updateTimer userId
                    (mkPatch (Some true) (Some (Some pausedAt))
                       (Some (timerNotes s))))) resp ;;
     set (setIsPaused true) ;;
     emit (EvConsoleLog "Timer paused and saved to backend"))
    (fun error =>
       emit (EvConsoleError "Failed to pause timer:") ;;
       emit (EvAlert "Failed to pause timer. Please try again."))
    (set (setIsLoading false)).

Definition handleResumeTimer (s : State) (resp : Outcome unit) : M unit :=
  try_catch_finally
    (set (setIsLoading true) ;;
     call (EvApi (updateTimer userId
                    (mkPatch (Some false) (Some None)
                       (Some (timerNotes s))))) resp ;;
     set (setIsPaused false) ;;
     emit (EvConsoleLog "Timer resumed and saved to backend"))
    (fun error =>
       emit (EvConsoleError "Failed to resume timer:") ;;
       emit (EvAlert "Failed to resume timer. Please try again."))
    (set (setIsLoading false)).

(** [addResp] is how the awaited [onAddFast] ends, [delResp] how
    [apiService.deleteTimer] ends. *)
Definition handleStopTimer (s : State) (now : Date)
    (addResp delResp : Outcome unit) : M unit :=
  match timerStartTime s with
  | Some start =>
      try_catch_finally
        (set (setIsLoading true) ;;
         let endTime := now in
         call (EvOnAddFast start endTime (timerNotes s)) addResp ;;
         call (EvApi (deleteTimer userId)) delResp ;;
         set (setIsTimerActive false) ;;
         set (setTimerStartTime None) ;;
         set (setElapsedSeconds 0) ;;
         set (setIsPaused false) ;;
         set (setTimerNotes "") ;;
         emit (EvConsoleLog "Timer stopped and fast saved"))
        (fun error =>
           emit (EvConsoleError "Failed to stop timer:") ;;
           emit (EvAlert "Failed to stop timer. Please try again."))
        (set (setIsLoading false))
  | None => ret tt
  end.

Definition handleUpdateTimerNotes (s : State) (newNotes : string)
    (resp : Outcome unit) : M unit :=
  set (setTimerNotes newNotes) ;;
  if isTimerActive s then
    try_catch
      (call (EvApi (updateTimer userId (mkPatch None None (Some newNotes))))
         resp)
      (fun error => emit (EvConsoleError "Failed to update timer notes:"))
  else ret tt.

End Handlers.

(** ** The refresh interval and the component as a state machine *)

(** The body of the timer effect.  The result is the interval that the
    effect installs, named by the [timerStartTime] that its callback
    holds; [None] when the effect installs nothing. *)
Definition timerEffect (s : State) : option Date :=
  if isTimerActive s then
    match timerStartTime s with
    | Some t => if negb (isPaused s) then Some t else None
    | None => None
    end
  else None.

Definition sameTime (a b : option Date) : bool :=
  match a, b with
  | Some x, Some y => x =? y
  | None, None => true
  | _, _ => false
  end.

(** The dependency array [[isTimerActive, timerStartTime, isPaused]]. *)
Definition sameDeps (s s' : State) : bool :=
  Bool.eqb (isTimerActive s) (isTimerActive s')
  && sameTime (timerStartTime s) (timerStartTime s')
  && Bool.eqb (isPaused s) (isPaused s').

Record Sys := mkSys {
  component : State;
  interval : option Date;
  mounted : bool;
  history : list Event
}.

(** The render after a state change.  When a dependency of the timer
    effect changed, React first runs the cleanup of the previous effect
    ([clearInterval], which leaves no interval) and then the effect. *)
Definition commit (sys : Sys) (s' : State) (evs : list Event) : Sys :=
  let interval' :=
    if sameDeps (component sys) s' then interval sys
    else
      let cleared : option Date := None in
      match timerEffect s' with
      | Some t => Some t
      | None => cleared
      end in
  mkSys s' interval' true (history sys ++ evs).

(** The first render and its timer effect.  The effect that loads the
    stored timer is the action [ActLoad] below; [mountComponent] runs
    both. *)
Definition mount (now : Date) : Sys :=
  mkSys (initialState now) (timerEffect (initialState now)) true [].

(** The callback of the interval, run at clock [now]. *)
Definition tick (now : Date) (sys : Sys) : Sys :=
  match interval sys with
  | Some t0 =>
      let u := setElapsedSeconds (differenceInSeconds now t0) in
      commit sys (applySetter u (component sys)) [EvSet u]
  | None => sys
  end.

(** Unmounting runs the cleanup of the timer effect. *)
Definition unmount (sys : Sys) : Sys :=
  mkSys (component sys) None false (history sys).

Definition runHandler (h : M unit) (sys : Sys) : Sys :=
  let x := run h (component sys) in
  commit sys (finalState x) (effects x).

Inductive Action :=
| ActTick (now : Date)
| ActLoad (resp : Outcome (option TimerData)) (now : Date)
| ActStart (now : Date) (resp : Outcome unit)
| ActPause (now : Date) (resp : Outcome unit)
| ActResume (resp : Outcome unit)
| ActStop (now : Date) (addResp delResp : Outcome unit)
| ActNotes (newNotes : string) (resp : Outcome unit)
| ActUnmount.

(** Which control the rendered page offers in a state: the start button
    when no timer is active; pause or resume, stop and the notes box
    when one is. *)
Definition offered (a : Action) (s : State) : bool :=
  match a with
  | ActStart _ _ => negb (isTimerActive s)
  | ActPause _ _ => isTimerActive s && negb (isPaused s)
  | ActResume _ => isTimerActive s && isPaused s
  | ActStop _ _ _ => isTimerActive s
  | ActNotes _ _ => isTimerActive s
  | ActTick _ | ActLoad _ _ | ActUnmount => true
  end.

Section Machine.
Variable userId : string.

Definition step (sys : Sys) (a : Action) : Sys :=
  if mounted sys && offered a (component sys) then
    let s := component sys in
    match a with
    | ActTick now => tick now sys
    | ActLoad resp now => runHandler (loadTimerFromBackend userId resp now) sys
    | ActStart now resp => runHandler (handleStartTimer userId s now resp) sys
    | ActPause now resp => runHandler (handlePauseTimer userId s now resp) sys
    | ActResume resp => runHandler (handleResumeTimer userId s resp) sys
    | ActStop now addResp delResp =>
        runHandler (handleStopTimer userId s now addResp delResp) sys
    | ActNotes newNotes resp =>
        runHandler (handleUpdateTimerNotes userId s newNotes resp) sys
    | ActUnmount => unmount sys
    end
  else sys.

Definition steps (sys : Sys) (acts : list Action) : Sys :=
  fold_left step acts sys.

End Machine.

(** Mounting as the page performs it: the first render, then the effect
    [useEffect(() => { loadTimerFromBackend(); }, [userId])], whose
    request the backend answers with [resp] and whose clock reads
    [now]. *)
Definition mountComponent (userId : string) (now0 : Date)
    (resp : Outcome (option TimerData)) (now : Date) : Sys :=
  runHandler (loadTimerFromBackend userId resp now) (mount now0).

(** The fasts handed to the history store: the arguments of every call
    of [onAddFast] in a trace. *)
Fixpoint fastsAdded (l : list Event) : list (Date * Date * string) :=
  match l with
  | [] => []
  | EvOnAddFast a b n :: l' => (a, b, n) :: fastsAdded l'
  | _ :: l' => fastsAdded l'
  end.

Definition ok : Outcome unit := Resolved tt.
Definition failed : Outcome unit := Rejected "backend unavailable"%string.

(** ** Display helpers and the manual-entry preview *)

(** [n.toString()] of an integer: decimal digits, with a minus sign. *)
Definition toString (n : Z) : string := NilZero.string_of_int (Z.to_int n).

Fixpoint repeatChar (c : ascii) (n : nat) : string :=
  match n with
  | O => EmptyString
  | S k => String c (repeatChar c k)
  end.

(** [s.padStart(n, c)] with a filler of one character: a string of
    length [n] or more is returned as it is. *)
Definition padStart (s : string) (n : nat) (c : ascii) : string :=
  append (repeatChar c (n - String.length s)) s.

(** A number padded to two characters, as the labels print it. *)
Definition pad2 (n : Z) : string := padStart (toString n) 2 "0".

Definition formatTime (hour : Z) : string :=
  append (padStart (toString hour) 2 "0") ":00".

(** The three numbers that [formatTimerDisplay] prints: [Math.floor] of
    a quotient by a positive number is the floor division; [%] is the
    remainder with the sign of the dividend. *)
Definition timerFields (seconds : Z) : Z * Z * Z :=
  let hours := seconds / 3600 in
  let minutes := Z.rem seconds 3600 / 60 in
  let secs := Z.rem seconds 60 in
  (hours, minutes, secs).

Definition formatTimerDisplay (seconds : Z) : string :=
  let hours := seconds / 3600 in
  let minutes := Z.rem seconds 3600 / 60 in
  let secs := Z.rem seconds 60 in
  append (padStart (toString hours) 2 "0")
    (append ":" (append (padStart (toString minutes) 2 "0")
                   (append ":" (padStart (toString secs) 2 "0")))).

(** [duration.total], [duration.hours], [duration.minutes]: a property
    read on the number [0] is [undefined]. *)
Definition totalOf (d : Duration) : option Q :=
  match d with DZero => None | DRecord _ _ t => Some t end.
Definition hoursOf (d : Duration) : option Z :=
  match d with DZero => None | DRecord h _ _ => Some h end.
Definition minutesOf (d : Duration) : option Z :=
  match d with DZero => None | DRecord _ m _ => Some m end.

(** [x > 0] and [x <= 0]: with [undefined] on the left the operand is
    not a number and both comparisons are [false]. *)
Definition js_gt0 (x : option Q) : bool :=
  match x with Some q => negb (Qle_bool q 0) | None => false end.
Definition js_le0 (x : option Q) : bool :=
  match x with Some q => Qle_bool q 0 | None => false end.

(** [Math.round]: the nearest integer, halves upwards. *)
Definition Math_round (q : Q) : Z := Qfloor (q + (1 # 2)).

(** The duration preview of the form: the rounded total with the hours
    and minutes, or the message that asks for a later end. *)
Inductive Preview :=
| PreviewDuration (rounded hours minutes : option Z)
| PreviewInvalid.

Definition durationPreview (duration : Duration) : Preview :=
  if js_gt0 (totalOf duration) then
    PreviewDuration (option_map Math_round (totalOf duration))
      (hoursOf duration) (minutesOf duration)
  else PreviewInvalid.

(** The [disabled] attribute of the submit button. *)
Definition submitDisabled (duration : Duration) : bool :=
  js_le0 (totalOf duration).

(** What holds of the timer state in every state the component reaches. *)
Definition timerInv (s : State) : Prop :=
  (isTimerActive s = true <-> timerStartTime s <> None)
  /\ (isPaused s = true -> isTimerActive s = true)
  /\ isLoading s = false.

(** ** Notions used in the statements *)

(** Whether the overnight adjustment applies to a form. *)
Definition overnight (s : State) : bool :=
  (toDateString (startDate s) =? toDateString (endDate s))
  && (endHour s <? startHour s).

(** The length in hours from day [d1] hour [h1] to day [d2] hour [h2]. *)
Definition hoursBetween (d1 h1 d2 h2 : Z) : Z := (d2 - d1) * 24 + h2 - h1.

(** A fast whose end is later than its start. *)
Definition positiveFast (f : Date * Date * string) : Prop :=
  let '(startTime, endTime, _) := f in valueOf startTime < valueOf endTime.

(** The setters called before the first call that leaves the component
    (a backend call, or the [onAddFast] callback). *)
Fixpoint settersBeforeCall (l : list Event) : list Setter :=
  match l with
  | [] => []
  | EvApi _ :: _ => []
  | EvOnAddFast _ _ _ :: _ => []
  | EvSet u :: l' => u :: settersBeforeCall l'
  | _ :: l' => settersBeforeCall l'
  end.

(** The calls that leave the component, in order. *)
Definition outwardCalls (l : list Event) : list Event :=
  filter (fun e => match e with
                   | EvApi _ | EvOnAddFast _ _ _ => true
                   | _ => false
                   end) l.

Definition isAlert (e : Event) : bool :=
  match e with EvAlert _ => true | _ => false end.

Definition alerted (l : list Event) : bool := existsb isAlert l.

(** The discipline as the specification words it, for one run of a
    handler from state [s] with backend answer [resp]: no state change
    before the backend call, and on failure an alert and the state
    untouched. *)
Definition backendFirst (s : State) (resp : Outcome unit)
    (x : Outcome unit * World) : Prop :=
  settersBeforeCall (effects x) = []
  /\ (forall e, resp = Rejected e ->
                alerted (effects x) = true /\ finalState x = s).

(** The installed interval is the one the timer effect of the current
    state asks for; after unmount there is none. *)
Definition intervalInv (sys : Sys) : Prop :=
  interval sys = if mounted sys then timerEffect (component sys) else None.

(** Continuity as the specification words it: the seconds shown at
    [shownAt], after a resume at [resumedAt], are the seconds frozen at
    the pause plus the seconds run since the resume. *)
Definition continuesFrom (frozen : Z) (resumedAt shownAt : Date) (shown : Z)
  : Prop :=
  shown = frozen + differenceInSeconds shownAt resumedAt.

(** * Properties *)

(** ** Dates *)

Lemma Day_atHour (d h : Z) : 0 <= h < 24 -> Day (atHour d h) = d.
Proof.
  intros Hh. unfold Day, atHour, msPerDay, msPerHour.
  rewrite Z.div_add_l by lia.
  rewrite Z.div_small by lia. lia.
Qed.

Lemma Day_atDay (d : Z) : Day (atDay d) = d.
Proof. unfold Day, atDay, msPerDay. apply Z.div_mul. lia. Qed.

Lemma setHours_whole (d : Date) (h : Z) :
  setHours d h 0 0 0 = atHour (Day d) h.
Proof.
  unfold setHours, atHour, msPerDay, msPerHour, msPerMinute, msPerSecond.
  lia.
Qed.

(** [d.setDate(d.getDate() + 1)] is the same time on the next day,
    whatever the month. *)
Lemma setDate_next (d : Date) : setDate d (getDate d + 1) = d + msPerDay.
Proof.
  unfold setDate, Day, TimeWithinDay.
  generalize (getDate d); intros g.
  pose proof (Z.div_mod d msPerDay) as E.
  assert (msPerDay <> 0) as N by (unfold msPerDay; lia).
  specialize (E N). lia.
Qed.

Lemma atHour_next_day (d h : Z) : atHour d h + msPerDay = atHour (d + 1) h.
Proof. unfold atHour, msPerDay, msPerHour. lia. Qed.

Lemma atHour_diff (d1 h1 d2 h2 : Z) :
  differenceInMilliseconds (atHour d2 h2) (atHour d1 h1)
  = ((d2 - d1) * 24 + h2 - h1) * msPerHour.
Proof.
  unfold differenceInMilliseconds, valueOf, atHour, msPerDay, msPerHour. lia.
Qed.

Lemma date_le_atHour (d1 h1 d2 h2 : Z) :
  date_le (atHour d2 h2) (atHour d1 h1) = ((d2 - d1) * 24 + h2 - h1 <=? 0).
Proof.
  unfold date_le, valueOf, atHour, msPerDay, msPerHour.
  destruct (Z.leb_spec (d2 * 86400000 + h2 * 3600000)
              (d1 * 86400000 + h1 * 3600000));
    destruct (Z.leb_spec ((d2 - d1) * 24 + h2 - h1) 0); try reflexivity; lia.
Qed.

(** Between two whole hours the difference has no odd minutes. *)
Lemma durationRecord_whole (d1 h1 d2 h2 : Z) :
  durationRecord (atHour d1 h1) (atHour d2 h2)
  = let k := (d2 - d1) * 24 + h2 - h1 in
    DRecord k 0 (inject_Z k + inject_Z 0 / 60)%Q.
Proof.
  unfold durationRecord, differenceInHours, differenceInMinutes.
  rewrite atHour_diff. cbv zeta.
  set (k := (d2 - d1) * 24 + h2 - h1).
  assert (Z.quot (k * msPerHour) msPerHour = k) as ->
    by (apply Z.quot_mul; unfold msPerHour; lia).
  assert (Z.quot (k * msPerHour) msPerMinute = k * 60) as ->.
  { replace (k * msPerHour) with (k * 60 * msPerMinute)
      by (unfold msPerHour, msPerMinute; ring).
    apply Z.quot_mul. unfold msPerMinute; lia. }
  assert (Z.rem (k * 60) 60 = 0) as -> by (apply Z.rem_mul; lia).
  reflexivity.
Qed.

(** ** The duration calculators in closed form *)

Lemma Part001_computedStart_eq (s : State) :
  Part001.computedStart s = atHour (Day (startDate s)) (startHour s).
Proof. unfold Part001.computedStart, newDate. apply setHours_whole. Qed.

Lemma Components_computedStart_eq (s : State) :
  Components.computedStart s = atHour (Day (startDate s)) (startHour s).
Proof. unfold Components.computedStart, newDate. apply setHours_whole. Qed.

Lemma Components_computedEnd_eq (s : State) :
  Components.computedEnd s = atHour (Day (endDate s)) (endHour s).
Proof. unfold Components.computedEnd, newDate. apply setHours_whole. Qed.

Lemma Part001_computedEnd_eq (s : State) :
  Part001.computedEnd s
  = atHour (Day (endDate s) + (if overnight s then 1 else 0)) (endHour s).
Proof.
  unfold Part001.computedEnd, overnight, newDate. cbv zeta.
  destruct ((toDateString (startDate s) =? toDateString (endDate s))
            && (endHour s <? startHour s)).
  - rewrite setDate_next, setHours_whole. apply atHour_next_day.
  - rewrite setHours_whole. f_equal. lia.
Qed.

Lemma Part001_calculateDuration_eq (s : State) :
  Part001.calculateDuration s
  = let k := hoursBetween (Day (startDate s)) (startHour s)
               (Day (endDate s) + (if overnight s then 1 else 0)) (endHour s) in
    if k <=? 0 then DZero
    else DRecord k 0 (inject_Z k + inject_Z 0 / 60)%Q.
Proof.
  unfold Part001.calculateDuration. cbv zeta.
  rewrite Part001_computedStart_eq, Part001_computedEnd_eq.
  rewrite date_le_atHour, durationRecord_whole. reflexivity.
Qed.

Lemma Components_calculateDuration_eq (s : State) :
  Components.calculateDuration s
  = let k := hoursBetween (Day (startDate s)) (startHour s)
               (Day (endDate s)) (endHour s) in
    if k <=? 0 then DZero
    else DRecord k 0 (inject_Z k + inject_Z 0 / 60)%Q.
Proof.
  unfold Components.calculateDuration. cbv zeta.
  rewrite Components_computedStart_eq, Components_computedEnd_eq.
  rewrite date_le_atHour, durationRecord_whole. reflexivity.
Qed.

(** The submit handlers use the same [start] and [end] as the
    calculators. *)
Lemma Part001_handleSubmit_eq (s : State) (r : Outcome unit) (n1 n2 : Date) :
  Part001.handleSubmit s r n1 n2
  = bind (emit EvPreventDefault) (fun _ =>
      if date_le (Part001.computedEnd s) (Part001.computedStart s) then
        emit (EvAlert "End time must be after start time")
      else
        bind (call (EvOnAddFast (Part001.computedStart s)
                      (Part001.computedEnd s) (notes s)) r) (fun _ =>
        bind (set (setStartDate n1)) (fun _ =>
        bind (set (setEndDate n2)) (fun _ =>
        bind (set (setStartHour 20)) (fun _ =>
        bind (set (setEndHour 12)) (fun _ => set (setNotes ""))))))).
Proof. reflexivity. Qed.

Lemma Components_handleSubmit_eq (s : State) (r : Outcome unit) (n1 n2 : Date) :
  Components.handleSubmit s r n1 n2
  = bind (emit EvPreventDefault) (fun _ =>
      if date_le (Components.computedEnd s) (Components.computedStart s) then
        emit (EvAlert "End time must be after start time")
      else
        bind (call (EvOnAddFast (Components.computedStart s)
                      (Components.computedEnd s) (notes s)) r) (fun _ =>
        bind (set (setStartDate n1)) (fun _ =>
        bind (set (setEndDate n2)) (fun _ =>
        bind (set (setStartHour 20)) (fun _ =>
        bind (set (setEndHour 12)) (fun _ => set (setNotes ""))))))).
Proof. reflexivity. Qed.

(** The adjusted end is never earlier than the unadjusted one. *)
Lemma computedEnd_le (s : State) :
  valueOf (Components.computedEnd s) <= valueOf (Part001.computedEnd s).
Proof.
  rewrite Components_computedEnd_eq, Part001_computedEnd_eq.
  unfold valueOf, atHour, msPerDay, msPerHour.
  destruct (overnight s); lia.
Qed.

Lemma computedStart_same (s : State) :
  Components.computedStart s = Part001.computedStart s.
Proof. reflexivity. Qed.

Lemma overnight_true (s : State) :
  toDateString (startDate s) = toDateString (endDate s) ->
  endHour s < startHour s ->
  overnight s = true.
Proof.
  intros Hd Hlt. unfold overnight.
  rewrite Hd, Z.eqb_refl. simpl. apply Z.ltb_lt. exact Hlt.
Qed.

(** ** Manual entry: overnight fasts *)

(** In [src/unnamed/part_001]: for hours 0-23 on one calendar day with
    the end hour before the start hour, the end is moved to the next
    day at the end hour; the duration is derived from that end, and the
    submit handler hands that end to [onAddFast]. *)
Theorem Part001_overnight_rollover (s : State) :
  0 <= startHour s <= 23 ->
  0 <= endHour s <= 23 ->
  toDateString (startDate s) = toDateString (endDate s) ->
  endHour s < startHour s ->
  Day (Part001.computedEnd s) = Day (startDate s) + 1
  /\ Part001.computedEnd s = atHour (Day (startDate s) + 1) (endHour s)
  /\ Part001.calculateDuration s
     = durationRecord (Part001.computedStart s) (Part001.computedEnd s)
  /\ forall r n1 n2,
       fastsAdded (effects (run (Part001.handleSubmit s r n1 n2) s))
       = [(Part001.computedStart s, Part001.computedEnd s, notes s)].
Proof.
  intros Hs He Hd Hlt.
  pose proof (overnight_true s Hd Hlt) as Ho.
  assert (Part001.computedEnd s = atHour (Day (startDate s) + 1) (endHour s))
    as Eend.
  { rewrite Part001_computedEnd_eq, Ho. unfold toDateString in Hd.
    rewrite Hd. reflexivity. }
  assert (date_le (Part001.computedEnd s) (Part001.computedStart s) = false)
    as Ele.
  { rewrite Eend, Part001_computedStart_eq, date_le_atHour.
    apply Z.leb_gt. lia. }
  split; [| split; [exact Eend | split]].
  - rewrite Eend. apply Day_atHour. lia.
  - unfold Part001.calculateDuration. cbv zeta. rewrite Ele. reflexivity.
  - intros r n1 n2. rewrite Part001_handleSubmit_eq.
    unfold run, effects, bind, emit. cbn [fst snd w_state w_trace].
    rewrite Ele. unfold call, set. destruct r; reflexivity.
Qed.

(** The first form on day 19782 (2024-02-29): the end moves to the
    first of March. *)
Lemma Part001_overnight_rollover_example :
  let s := formAt 19782 19782 20 12 in
  Day (Part001.computedEnd s) = 19783
  /\ getDate (Part001.computedStart s) = 29
  /\ getDate (Part001.computedEnd s) = 1.
Proof.
  cbv zeta. split; [| split; vm_compute; reflexivity].
  apply (Part001_overnight_rollover (formAt 19782 19782 20 12));
    simpl; try lia; reflexivity.
Qed.

(** C1: on every form with hours 0-23, start and end on one calendar
    day and the end hour before the start hour, [src/unnamed/part_001]
    moves the end to the day after the start date, whereas
    [src/src/components/CalendarFastEntry.tsx] leaves the end on the
    start date: its calculator returns the sentinel and its submit
    handler adds no fast. *)
Theorem C1_components_copy_has_no_rollover (s : State) :
  0 <= startHour s <= 23 ->
  0 <= endHour s <= 23 ->
  toDateString (startDate s) = toDateString (endDate s) ->
  endHour s < startHour s ->
  Day (Part001.computedEnd s) = Day (startDate s) + 1
  /\ Day (Components.computedEnd s) = Day (startDate s)
  /\ Components.calculateDuration s = DZero
  /\ forall r n1 n2,
       fastsAdded (effects (run (Components.handleSubmit s r n1 n2) s)) = [].
Proof.
  intros Hs He Hd Hlt.
  assert (date_le (Components.computedEnd s) (Components.computedStart s)
          = true) as Ele.
  { rewrite Components_computedEnd_eq, Components_computedStart_eq,
      date_le_atHour.
    unfold toDateString in Hd. rewrite Hd. apply Z.leb_le. lia. }
  split; [| split; [| split]].
  - apply (Part001_overnight_rollover s Hs He Hd Hlt).
  - rewrite Components_computedEnd_eq, Day_atHour by lia.
    symmetry. exact Hd.
  - unfold Components.calculateDuration. cbv zeta. rewrite Ele. reflexivity.
  - intros r n1 n2. rewrite Components_handleSubmit_eq.
    unfold run, effects, bind, emit. cbn [fst snd w_state w_trace].
    rewrite Ele. reflexivity.
Qed.

(** The form as first rendered on day 19782 (2024-02-29): 20:00 to
    12:00 on the same day. *)
Lemma C1_components_copy_has_no_rollover_witness :
  let s := formAt 19782 19782 20 12 in
  Day (Part001.computedEnd s) = 19783
  /\ Day (Components.computedEnd s) = 19782
  /\ Components.calculateDuration s = DZero
  /\ forall r n1 n2,
       fastsAdded (effects (run (Components.handleSubmit s r n1 n2) s)) = [].
Proof.
  apply (C1_components_copy_has_no_rollover (formAt 19782 19782 20 12));
    simpl; try lia; reflexivity.
Defined.

(** C2: start 20:00 and end 12:00 on the same day [D].  The copy in
    [src/unnamed/part_001] moves the end to day [D + 1] and returns 16
    hours and 0 minutes; the copy in
    [src/src/components/CalendarFastEntry.tsx] returns the sentinel. *)
Theorem C2_twenty_to_noon (D : Z) :
  let s := formAt D D 20 12 in
  Day (Part001.computedEnd s) = D + 1
  /\ Part001.calculateDuration s
     = DRecord 16 0 (inject_Z 16 + inject_Z 0 / 60)%Q
  /\ (inject_Z 16 + inject_Z 0 / 60 == 16)%Q
  /\ Components.calculateDuration s = DZero.
Proof.
  cbv zeta.
  assert (overnight (formAt D D 20 12) = true) as Ho.
  { apply overnight_true; simpl; [reflexivity | lia]. }
  split; [| split; [| split]].
  - rewrite Part001_computedEnd_eq, Ho. simpl. rewrite Day_atDay.
    apply Day_atHour. lia.
  - rewrite Part001_calculateDuration_eq, Ho. simpl endHour. simpl startHour.
    simpl startDate. simpl endDate. rewrite Day_atDay. cbv zeta.
    unfold hoursBetween.
    replace ((D + 1 - D) * 24 + 12 - 20) with 16 by lia. reflexivity.
  - reflexivity.
  - rewrite Components_calculateDuration_eq. simpl endHour. simpl startHour.
    simpl startDate. simpl endDate. rewrite Day_atDay. cbv zeta.
    unfold hoursBetween.
    replace ((D - D) * 24 + 12 - 20) with (-8) by lia. reflexivity.
Qed.

(** ** Manual entry: the sentinel and the rejected submission *)

(** C3: when the end, after the overnight adjustment, is not later than
    the start, [calculateDuration] returns the number 0 and no record,
    in both copies.  The calculator is a total function of the form
    state: it returns on every input and has no path that throws. *)
Theorem C3_sentinel_when_end_not_after_start (s : State) :
  valueOf (Part001.computedEnd s) <= valueOf (Part001.computedStart s) ->
  Part001.calculateDuration s = DZero
  /\ Components.calculateDuration s = DZero
  /\ (forall h m t, Part001.calculateDuration s <> DRecord h m t)
  /\ (forall h m t, Components.calculateDuration s <> DRecord h m t).
Proof.
  intros H.
  assert (Part001.calculateDuration s = DZero) as E1.
  { unfold Part001.calculateDuration, date_le. cbv zeta.
    apply Z.leb_le in H. rewrite H. reflexivity. }
  assert (Components.calculateDuration s = DZero) as E2.
  { unfold Components.calculateDuration, date_le. cbv zeta.
    pose proof (computedEnd_le s) as L. rewrite computedStart_same.
    assert ((valueOf (Components.computedEnd s)
             <=? valueOf (Part001.computedStart s)) = true) as ->
      by (apply Z.leb_le; lia).
    reflexivity. }
  rewrite E1, E2. repeat split; intros; discriminate.
Qed.

(** End 08:00 on the day before the start day. *)
Lemma C3_sentinel_when_end_not_after_start_witness :
  let s := formAt 19782 19781 8 8 in
  Part001.calculateDuration s = DZero
  /\ Components.calculateDuration s = DZero
  /\ (forall h m t, Part001.calculateDuration s <> DRecord h m t)
  /\ (forall h m t, Components.calculateDuration s <> DRecord h m t).
Proof.
  apply (C3_sentinel_when_end_not_after_start (formAt 19782 19781 8 8)).
  vm_compute. discriminate.
Defined.

(** A record is returned only when the end is later than the start. *)
Lemma calculateDuration_record_positive (s : State) (h m : Z) (t : Q) :
  (Part001.calculateDuration s = DRecord h m t ->
   valueOf (Part001.computedStart s) < valueOf (Part001.computedEnd s))
  /\ (Components.calculateDuration s = DRecord h m t ->
      valueOf (Components.computedStart s) < valueOf (Components.computedEnd s)).
Proof.
  unfold Part001.calculateDuration, Components.calculateDuration, date_le.
  cbv zeta. split; intros H.
  - destruct (Z.leb_spec (valueOf (Part001.computedEnd s))
                (valueOf (Part001.computedStart s))); [discriminate | lia].
  - destruct (Z.leb_spec (valueOf (Components.computedEnd s))
                (valueOf (Components.computedStart s))); [discriminate | lia].
Qed.

(** C5: a submission whose end, after the overnight adjustment, is not
    later than the start is blocked in both copies: the handler returns
    normally after an alert, [onAddFast] is not called and the state of
    the form is the one it had. *)
Theorem C5_invalid_submission_is_blocked
    (s : State) (r : Outcome unit) (n1 n2 : Date) :
  valueOf (Part001.computedEnd s) <= valueOf (Part001.computedStart s) ->
  let p := run (Part001.handleSubmit s r n1 n2) s in
  let c := run (Components.handleSubmit s r n1 n2) s in
  (outcome p = Resolved tt
   /\ effects p = [EvPreventDefault; EvAlert "End time must be after start time"]
   /\ fastsAdded (effects p) = []
   /\ finalState p = s)
  /\ (outcome c = Resolved tt
      /\ effects c = [EvPreventDefault; EvAlert "End time must be after start time"]
      /\ fastsAdded (effects c) = []
      /\ finalState c = s).
Proof.
  intros H. cbv zeta.
  assert (date_le (Part001.computedEnd s) (Part001.computedStart s) = true)
    as E1 by (apply Z.leb_le; exact H).
  assert (date_le (Components.computedEnd s) (Components.computedStart s)
          = true) as E2.
  { pose proof (computedEnd_le s) as L. rewrite computedStart_same.
    unfold date_le. apply Z.leb_le. lia. }
  rewrite Part001_handleSubmit_eq, Components_handleSubmit_eq.
  unfold run, outcome, effects, finalState, bind, emit.
  cbn [fst snd w_state w_trace]. rewrite E1, E2.
  cbn. repeat split; reflexivity.
Qed.

Lemma C5_invalid_submission_is_blocked_witness :
  let s := formAt 19782 19781 8 8 in
  let p := run (Part001.handleSubmit s ok 0 0) s in
  let c := run (Components.handleSubmit s ok 0 0) s in
  (outcome p = Resolved tt
   /\ effects p = [EvPreventDefault; EvAlert "End time must be after start time"]
   /\ fastsAdded (effects p) = []
   /\ finalState p = s)
  /\ (outcome c = Resolved tt
      /\ effects c = [EvPreventDefault; EvAlert "End time must be after start time"]
      /\ fastsAdded (effects c) = []
      /\ finalState c = s).
Proof.
  apply (C5_invalid_submission_is_blocked (formAt 19782 19781 8 8) ok 0 0).
  vm_compute. discriminate.
Defined.

(** ** Fasts handed to the history store *)

Lemma handleStopTimer_fasts (uid : string) (s : State) (now : Date)
    (ra rd : Outcome unit) :
  fastsAdded (effects (run (handleStopTimer uid s now ra rd) s))
  = match timerStartTime s with
    | Some t => [(t, now, timerNotes s)]
    | None => []
    end.
Proof.
  unfold handleStopTimer. destruct (timerStartTime s) as [t |].
  - destruct ra as [[] | e1]; [destruct rd as [[] | e2] |]; reflexivity.
  - reflexivity.
Qed.

Lemma Part001_handleSubmit_positive (s : State) (r : Outcome unit)
    (n1 n2 : Date) :
  Forall positiveFast
    (fastsAdded (effects (run (Part001.handleSubmit s r n1 n2) s))).
Proof.
  rewrite Part001_handleSubmit_eq.
  unfold run, effects, bind, emit. cbn [fst snd w_state w_trace].
  unfold date_le.
  destruct (Z.leb_spec (valueOf (Part001.computedEnd s))
              (valueOf (Part001.computedStart s))) as [L | L].
  - constructor.
  - destruct r as [[] | e]; cbn; repeat constructor; exact L.
Qed.

Lemma Components_handleSubmit_positive (s : State) (r : Outcome unit)
    (n1 n2 : Date) :
  Forall positiveFast
    (fastsAdded (effects (run (Components.handleSubmit s r n1 n2) s))).
Proof.
  rewrite Components_handleSubmit_eq.
  unfold run, effects, bind, emit. cbn [fst snd w_state w_trace].
  unfold date_le.
  destruct (Z.leb_spec (valueOf (Components.computedEnd s))
              (valueOf (Components.computedStart s))) as [L | L].
  - constructor.
  - destruct r as [[] | e]; cbn; repeat constructor; exact L.
Qed.

(** C4, as the code has it: every fast that a submit handler hands to
    [onAddFast] ends after it starts; stopping the timer hands over the
    stored start time and the clock at the stop without comparing them,
    so that fast ends after it starts exactly when the clock at the
    stop is later than the stored start time. *)
Theorem C4_fasts_handed_over (uid : string) (s : State) :
  (forall r n1 n2,
      Forall positiveFast
        (fastsAdded (effects (run (Part001.handleSubmit s r n1 n2) s))))
  /\ (forall r n1 n2,
         Forall positiveFast
           (fastsAdded (effects (run (Components.handleSubmit s r n1 n2) s))))
  /\ (forall now ra rd,
         fastsAdded (effects (run (handleStopTimer uid s now ra rd) s))
         = match timerStartTime s with
           | Some t => [(t, now, timerNotes s)]
           | None => []
           end)
  /\ (forall now ra rd t,
         timerStartTime s = Some t ->
         (Forall positiveFast
            (fastsAdded (effects (run (handleStopTimer uid s now ra rd) s)))
          <-> valueOf t < valueOf now)).
Proof.
  split; [| split; [| split]].
  - apply Part001_handleSubmit_positive.
  - apply Components_handleSubmit_positive.
  - apply handleStopTimer_fasts.
  - intros now ra rd t Ht. rewrite handleStopTimer_fasts, Ht. split.
    + intros F. inversion F as [| x l P _]; subst. exact P.
    + intros L. repeat constructor. exact L.
Qed.

(** C4 as stated fails on the timer path.  The stored timer was started
    on a device whose clock read 5000; this device loads it when its own
    clock reads 1000 and the user stops it at 2000: the fast handed to
    the history store ends before it starts. *)
Lemma C4_stop_timer_counterexample :
  let stored := mkTimerData 5000 false None None in
  let sys := steps "user" (mount 0)
               [ActLoad (Resolved (Some stored)) 1000; ActStop 2000 ok ok] in
  fastsAdded (history sys) = [(5000, 2000, ""%string)]
  /\ ~ Forall positiveFast (fastsAdded (history sys)).
Proof.
  cbv zeta. split; [reflexivity |].
  intros F. vm_compute in F. inversion F as [| x l P _]; subst.
  vm_compute in P. discriminate.
Qed.

(** ** Loading the stored timer *)

Lemma loadTimerFromBackend_elapsed (uid : string) (s : State)
    (td : TimerData) (now : Date) :
  let x := run (loadTimerFromBackend uid (Resolved (Some td)) now) s in
  elapsedSeconds (finalState x)
  = (if negb (td_isPaused td)
     then Z.quot (valueOf now - valueOf (td_startTime td)) 1000
     else match td_pausedAt td with
          | Some p => Z.quot (valueOf p - valueOf (td_startTime td)) 1000
          | None => elapsedSeconds s
          end)
  /\ timerStartTime (finalState x) = Some (td_startTime td)
  /\ isTimerActive (finalState x) = true
  /\ isPaused (finalState x) = td_isPaused td
  /\ outwardCalls (effects x) = [EvApi (getTimer uid)]
  /\ outcome x = Resolved tt.
Proof.
  cbv zeta. unfold loadTimerFromBackend.
  destruct td as [st p pa n]. cbn [td_startTime td_isPaused td_pausedAt td_notes].
  destruct p; [destruct pa |]; repeat split; reflexivity.
Qed.

Lemma whole_seconds (a b e : Z) :
  e = Z.quot (a - b) 1000 ->
  b <= a ->
  1000 * e <= a - b < 1000 * e + 1000.
Proof.
  intros E H. subst e. rewrite Z.quot_div_nonneg by lia.
  Z.to_euclidean_division_equations; lia.
Qed.

(** C6: the component mounts and the backend holds a timer.  The load
    that the mount starts asks the backend once, marks the timer active
    with the stored start time and pause flag, and sets the elapsed
    seconds to the milliseconds from the start time to now, divided by
    1000 and truncated, when the timer is not paused; and to the
    milliseconds from the start time to [pausedAt], divided by 1000 and
    truncated, when it is paused and [pausedAt] is present.  When the
    later time is not before the start time, these are the whole
    seconds between the two. *)
Theorem C6_load_sets_elapsed (uid : string) (now0 : Date) (td : TimerData)
    (now : Date) :
  let sys := mountComponent uid now0 (Resolved (Some td)) now in
  let start := valueOf (td_startTime td) in
  let shown := elapsedSeconds (component sys) in
  outwardCalls (history sys) = [EvApi (getTimer uid)]
  /\ isTimerActive (component sys) = true
  /\ timerStartTime (component sys) = Some (td_startTime td)
  /\ isPaused (component sys) = td_isPaused td
  /\ (td_isPaused td = false ->
      shown = Z.quot (valueOf now - start) 1000
      /\ (start <= valueOf now ->
          1000 * shown <= valueOf now - start < 1000 * shown + 1000))
  /\ (forall p,
         td_isPaused td = true ->
         td_pausedAt td = Some p ->
         shown = Z.quot (valueOf p - start) 1000
         /\ (start <= valueOf p ->
             1000 * shown <= valueOf p - start < 1000 * shown + 1000)).
Proof.
  cbv zeta. unfold mountComponent, runHandler, commit.
  cbn [component history mount app].
  pose proof (loadTimerFromBackend_elapsed uid (initialState now0) td now)
    as (E & S & A & P & C & _). cbv zeta in E, S, A, P, C.
  split; [exact C |]. split; [exact A |]. split; [exact S |].
  split; [exact P |]. split.
  - intros Hp. rewrite Hp in E. cbn [negb] in E.
    split; [exact E |]. intros H. apply whole_seconds; assumption.
  - intros p Hp Hpa. rewrite Hp, Hpa in E. cbn [negb] in E.
    split; [exact E |]. intros H. apply whole_seconds; assumption.
Qed.

(** A timer started at 1 s: loaded at 61.5 s while running it shows 60
    seconds; loaded while paused since 31 s it shows 30. *)
Lemma C6_load_sets_elapsed_witness :
  let running := mkTimerData 1000 false None None in
  let paused := mkTimerData 1000 true (Some 31000) None in
  elapsedSeconds
    (component (mountComponent "user" 0 (Resolved (Some running)) 61500)) = 60
  /\ elapsedSeconds
       (component (mountComponent "user" 0 (Resolved (Some paused)) 61500)) = 30.
Proof.
  cbv zeta. split.
  - pose proof (C6_load_sets_elapsed "user" 0
                  (mkTimerData 1000 false None None) 61500)
      as (_ & _ & _ & _ & A & _).
    cbv zeta in A. destruct (A eq_refl) as [E _]. rewrite E.
    vm_compute. reflexivity.
  - pose proof (C6_load_sets_elapsed "user" 0
                  (mkTimerData 1000 true (Some 31000) None) 61500)
      as (_ & _ & _ & _ & _ & B).
    cbv zeta in B. destruct (B 31000 eq_refl eq_refl) as [E _]. rewrite E.
    vm_compute. reflexivity.
Defined.

(** The difference in seconds is the difference of the time values in
    milliseconds, divided by 1000 and truncated. *)
Lemma differenceInSeconds_spec (a b : Date) :
  valueOf b <= valueOf a ->
  differenceInSeconds a b = (valueOf a - valueOf b) / 1000.
Proof.
  intros H. unfold differenceInSeconds, differenceInMilliseconds, msPerSecond.
  apply Z.quot_div_nonneg; lia.
Qed.

(** Without a stored timer, or when the request fails, loading changes
    nothing but the loading flag. *)
Lemma load_without_timer (uid : string) (s : State) (now : Date) (e : Error) :
  finalState (run (loadTimerFromBackend uid (Resolved None) now) s)
  = applySetter (setIsLoading false) s
  /\ finalState (run (loadTimerFromBackend uid (Rejected e) now) s)
     = applySetter (setIsLoading false) s.
Proof. split; reflexivity. Qed.

(** ** Stopping the timer *)

(** C10: with a start time, [handleStopTimer] calls [onAddFast] before
    [deleteTimer]; when [deleteTimer] then fails, the fast has been
    handed over, an alert is shown, and the timer state is not reset
    (active flag, start time and notes are the ones before the stop).
    Without a start time the handler does nothing: no fast, no backend
    call, no state change. *)
Theorem C10_stop_is_not_atomic (uid : string) (s : State) (now : Date) :
  (forall t e,
      timerStartTime s = Some t ->
      let x := run (handleStopTimer uid s now ok (Rejected e)) s in
      effects x
      = [EvSet (setIsLoading true);
         EvOnAddFast t now (timerNotes s);
         EvApi (deleteTimer uid);
         EvConsoleError "Failed to stop timer:";
         EvAlert "Failed to stop timer. Please try again.";
         EvSet (setIsLoading false)]
      /\ fastsAdded (effects x) = [(t, now, timerNotes s)]
      /\ finalState x = applySetter (setIsLoading false) s
      /\ isTimerActive (finalState x) = isTimerActive s
      /\ timerStartTime (finalState x) = Some t
      /\ timerNotes (finalState x) = timerNotes s)
  /\ (timerStartTime s = None ->
      forall ra rd,
        let x := run (handleStopTimer uid s now ra rd) s in
        outcome x = Resolved tt /\ effects x = [] /\ finalState x = s).
Proof.
  split.
  - intros t e Ht. cbv zeta. unfold handleStopTimer. rewrite Ht.
    repeat split; try reflexivity. cbn. exact Ht.
  - intros Hn ra rd. cbv zeta. unfold handleStopTimer. rewrite Hn.
    repeat split; reflexivity.
Qed.

(** A timer started at 0 and stopped at 60000 while the backend cannot
    delete it; and a stop without a timer. *)
Lemma C10_stop_is_not_atomic_witness :
  let s := component (steps "user" (mount 0) [ActStart 0 ok]) in
  let x := run (handleStopTimer "user" s 60000 ok failed) s in
  fastsAdded (effects x) = [(0, 60000, ""%string)]
  /\ isTimerActive (finalState x) = true
  /\ timerStartTime (finalState x) = Some 0
  /\ effects (run (handleStopTimer "user" (initialState 0) 60000 ok ok)
                (initialState 0)) = [].
Proof.
  cbv zeta.
  pose proof (C10_stop_is_not_atomic "user"
                (component (steps "user" (mount 0) [ActStart 0 ok])) 60000)
    as [A _].
  pose proof (C10_stop_is_not_atomic "user" (initialState 0) 60000) as [_ B].
  specialize (A 0 "backend unavailable"%string eq_refl).
  specialize (B eq_refl ok ok).
  cbv zeta in A, B.
  destruct A as (_ & A2 & _ & A4 & A5 & _). destruct B as (_ & B2 & _).
  repeat split; assumption.
Defined.

(** ** Backend first, state afterwards *)

(** C8 as stated fails for the note update.  A timer is running; the
    user types a note while the backend is unavailable: the note is set
    in local state before the backend call, no alert is shown, and the
    local state keeps the note. *)
Lemma C8_note_update_counterexample :
  let s := component (steps "user" (mount 0) [ActStart 0 ok]) in
  let x := run (handleUpdateTimerNotes "user" s "hungry" failed) s in
  effects x
  = [EvSet (setTimerNotes "hungry");
     EvApi (updateTimer "user" (mkPatch None None (Some "hungry"%string)));
     EvConsoleError "Failed to update timer notes:"]
  /\ settersBeforeCall (effects x) = [setTimerNotes "hungry"]
  /\ alerted (effects x) = false
  /\ timerNotes s = ""%string
  /\ timerNotes (finalState x) = "hungry"%string
  /\ ~ backendFirst s failed x.
Proof.
  cbv zeta. repeat split; try reflexivity.
  intros [B _]. vm_compute in B. discriminate.
Qed.

(** C8, as the code has it.
    - Start, pause and resume: the only setter before the backend call
      is [setIsLoading(true)]; when the backend fails, an alert is shown
      and the state is the one before the handler except that
      [isLoading] ends [false].
    - Stop (with a start time): [onAddFast] is called first, then
      [deleteTimer], with only [setIsLoading(true)] before them; when
      either fails, an alert is shown and the state is the one before
      except for [isLoading].
    - Note update: the notes are set before the backend call, which is
      made only when a timer is active; when it fails, no alert is shown
      and the new notes stay in the state. *)
Theorem C8_backend_then_state (uid : string) (s : State) (now : Date)
    (resp : Outcome unit) (e : Error) :
  let start := run (handleStartTimer uid s now resp) s in
  let startF := run (handleStartTimer uid s now (Rejected e)) s in
  let pause := run (handlePauseTimer uid s now resp) s in
  let pauseF := run (handlePauseTimer uid s now (Rejected e)) s in
  let resume := run (handleResumeTimer uid s resp) s in
  let resumeF := run (handleResumeTimer uid s (Rejected e)) s in
  (settersBeforeCall (effects start) = [setIsLoading true]
   /\ outwardCalls (effects start)
      = [EvApi (startTimer uid now (timerNotes s))]
   /\ alerted (effects startF) = true
   /\ finalState startF = applySetter (setIsLoading false) s)
  /\ (settersBeforeCall (effects pause) = [setIsLoading true]
      /\ outwardCalls (effects pause)
         = [EvApi (updateTimer uid
                     (mkPatch (Some true) (Some (Some now))
                        (Some (timerNotes s))))]
      /\ alerted (effects pauseF) = true
      /\ finalState pauseF = applySetter (setIsLoading false) s)
  /\ (settersBeforeCall (effects resume) = [setIsLoading true]
      /\ outwardCalls (effects resume)
         = [EvApi (updateTimer uid
                     (mkPatch (Some false) (Some None) (Some (timerNotes s))))]
      /\ alerted (effects resumeF) = true
      /\ finalState resumeF = applySetter (setIsLoading false) s)
  /\ (forall t addResp delResp,
         timerStartTime s = Some t ->
         let stop := run (handleStopTimer uid s now addResp delResp) s in
         settersBeforeCall (effects stop) = [setIsLoading true]
         /\ outwardCalls (effects stop)
            = match addResp with
              | Resolved _ =>
                  [EvOnAddFast t now (timerNotes s); EvApi (deleteTimer uid)]
              | Rejected _ => [EvOnAddFast t now (timerNotes s)]
              end
         /\ (addResp = Rejected e \/ delResp = Rejected e ->
             alerted (effects stop) = true
             /\ finalState stop = applySetter (setIsLoading false) s))
  /\ (forall newNotes,
         let note := run (handleUpdateTimerNotes uid s newNotes resp) s in
         let noteF := run (handleUpdateTimerNotes uid s newNotes (Rejected e)) s in
         settersBeforeCall (effects note) = [setTimerNotes newNotes]
         /\ outwardCalls (effects note)
            = (if isTimerActive s
               then [EvApi (updateTimer uid (mkPatch None None (Some newNotes)))]
               else [])
         /\ alerted (effects noteF) = false
         /\ finalState noteF = applySetter (setTimerNotes newNotes) s
         /\ outcome noteF = Resolved tt).
Proof.
  cbv zeta. split; [| split; [| split; [| split]]].
  - destruct resp as [[] | e']; repeat split; reflexivity.
  - destruct resp as [[] | e']; repeat split; reflexivity.
  - destruct resp as [[] | e']; repeat split; reflexivity.
  - intros t addResp delResp Ht. unfold handleStopTimer. rewrite Ht.
    destruct addResp as [[] | e1]; [destruct delResp as [[] | e2] |];
      (split; [reflexivity | split; [reflexivity |]]);
      intros [H | H]; try discriminate; split; reflexivity.
  - intros newNotes. unfold handleUpdateTimerNotes.
    destruct (isTimerActive s); destruct resp as [[] | e'];
      repeat split; reflexivity.
Qed.

(** After the backend has acknowledged, start, pause and resume change
    the timer state. *)
Lemma handlers_after_acknowledgement (uid : string) (s : State) (now : Date) :
  finalState (run (handleStartTimer uid s now ok) s)
  = applySetter (setIsLoading false)
      (applySetter (setElapsedSeconds 0)
         (applySetter (setIsPaused false)
            (applySetter (setIsTimerActive true)
               (applySetter (setTimerStartTime (Some now)) s))))
  /\ finalState (run (handlePauseTimer uid s now ok) s)
     = applySetter (setIsLoading false) (applySetter (setIsPaused true) s)
  /\ finalState (run (handleResumeTimer uid s ok) s)
     = applySetter (setIsLoading false) (applySetter (setIsPaused false) s).
Proof. repeat split. Qed.

(** ** The refresh interval *)

Lemma sameTime_true (a b : option Date) : sameTime a b = true -> a = b.
Proof.
  destruct a as [x |], b as [y |]; simpl; intros H; try discriminate.
  - apply Z.eqb_eq in H. congruence.
  - reflexivity.
Qed.

Lemma sameDeps_timerEffect (s s' : State) :
  sameDeps s s' = true -> timerEffect s = timerEffect s'.
Proof.
  unfold sameDeps, timerEffect. intros H.
  apply andb_prop in H as [H Hp]. apply andb_prop in H as [Ha Ht].
  apply Bool.eqb_prop in Ha, Hp. apply sameTime_true in Ht.
  rewrite Ha, Ht, Hp. reflexivity.
Qed.

Lemma commit_interval (sys : Sys) (s' : State) (evs : list Event) :
  interval sys = timerEffect (component sys) ->
  interval (commit sys s' evs) = timerEffect s'.
Proof.
  intros H. unfold commit. cbn [interval].
  destruct (sameDeps (component sys) s') eqn:E.
  - rewrite H. apply sameDeps_timerEffect. exact E.
  - destruct (timerEffect s'); reflexivity.
Qed.

Lemma commit_changed_deps (sys : Sys) (s' : State) (evs : list Event) :
  sameDeps (component sys) s' = false ->
  interval (commit sys s' evs) = timerEffect s'.
Proof.
  intros E. unfold commit. cbn [interval]. rewrite E.
  destruct (timerEffect s'); reflexivity.
Qed.

Lemma commit_inv (sys : Sys) (s' : State) (evs : list Event) :
  mounted sys = true -> intervalInv sys -> intervalInv (commit sys s' evs).
Proof.
  unfold intervalInv. intros Hm H. rewrite Hm in H.
  rewrite (commit_interval sys s' evs H). reflexivity.
Qed.

Lemma tick_inv (now : Date) (sys : Sys) :
  mounted sys = true -> intervalInv sys -> intervalInv (tick now sys).
Proof.
  intros Hm H. unfold tick. destruct (interval sys) eqn:E.
  - apply commit_inv; assumption.
  - exact H.
Qed.

Lemma step_inv (uid : string) (sys : Sys) (a : Action) :
  intervalInv sys -> intervalInv (step uid sys a).
Proof.
  intros H. unfold step.
  destruct (mounted sys) eqn:Hm; [| exact H]. cbn [andb].
  destruct (offered a (component sys)); [| exact H].
  destruct a; unfold runHandler;
    try (apply commit_inv; assumption).
  - apply tick_inv; assumption.
  - reflexivity.
Qed.

Lemma steps_inv (uid : string) (acts : list Action) :
  forall sys, intervalInv sys -> intervalInv (steps uid sys acts).
Proof.
  unfold steps. induction acts as [| a acts IH]; intros sys H.
  - exact H.
  - cbn [fold_left]. apply IH. apply step_inv. exact H.
Qed.

Lemma mount_inv (now : Date) : intervalInv (mount now).
Proof. reflexivity. Qed.

Lemma timerEffect_none (s : State) :
  isTimerActive s = false \/ timerStartTime s = None \/ isPaused s = true ->
  timerEffect s = None.
Proof.
  unfold timerEffect. intros [H | [H | H]]; rewrite H.
  - reflexivity.
  - destruct (isTimerActive s); reflexivity.
  - destruct (isTimerActive s), (timerStartTime s); reflexivity.
Qed.

Lemma timerEffect_some (s : State) (t : Date) :
  timerEffect s = Some t ->
  isTimerActive s = true /\ timerStartTime s = Some t /\ isPaused s = false.
Proof.
  unfold timerEffect.
  destruct (isTimerActive s), (timerStartTime s), (isPaused s);
    simpl; intros H; try discriminate.
  inversion H; subst. repeat split.
Qed.

(** C9: in every state the component reaches from its mount, through
    any sequence of loads, handler runs, ticks and an unmount, the
    installed interval is the one the effect asks for in the current
    state.  Hence a tick does nothing when the timer is inactive, has no
    start time, is paused, or the component is unmounted; a tick that
    runs sets the elapsed seconds from the start time of an active,
    unpaused timer; a render whose dependencies changed replaces the
    previous interval by the one of the new state (none if the new
    state is inactive or paused); and unmount leaves no interval. *)
Theorem C9_interval_follows_state (uid : string) (now0 : Date)
    (acts : list Action) :
  let sys := steps uid (mount now0) acts in
  intervalInv sys
  /\ (forall now,
         isTimerActive (component sys) = false
         \/ timerStartTime (component sys) = None
         \/ isPaused (component sys) = true
         \/ mounted sys = false ->
         step uid sys (ActTick now) = sys)
  /\ (forall now,
         elapsedSeconds (component (step uid sys (ActTick now)))
         <> elapsedSeconds (component sys) ->
         exists t,
           isTimerActive (component sys) = true
           /\ timerStartTime (component sys) = Some t
           /\ isPaused (component sys) = false
           /\ elapsedSeconds (component (step uid sys (ActTick now)))
              = differenceInSeconds now t)
  /\ (forall s' evs,
         sameDeps (component sys) s' = false ->
         interval (commit sys s' evs) = timerEffect s')
  /\ interval (unmount sys) = None.
Proof.
  cbv zeta. set (sys := steps uid (mount now0) acts).
  assert (intervalInv sys) as Inv by (apply steps_inv, mount_inv).
  split; [exact Inv |]. split; [| split; [| split]].
  - intros now H. unfold step. cbn [offered].
    destruct (mounted sys) eqn:Hm; [| reflexivity]. cbn [andb].
    unfold intervalInv in Inv. rewrite Hm in Inv.
    assert (timerEffect (component sys) = None) as E.
    { apply timerEffect_none.
      destruct H as [H | [H | [H | H]]]; auto. discriminate. }
    unfold tick. rewrite Inv, E. reflexivity.
  - intros now H. unfold step in *. cbn [offered] in *.
    destruct (mounted sys) eqn:Hm; [| contradiction H; reflexivity].
    cbn [andb] in *. unfold intervalInv in Inv. rewrite Hm in Inv.
    unfold tick in *. destruct (interval sys) as [t0 |] eqn:E.
    + symmetry in Inv. apply timerEffect_some in Inv as (A & B & C).
      exists t0. repeat split; assumption.
    + contradiction H; reflexivity.
  - intros s' evs. apply commit_changed_deps.
  - reflexivity.
Qed.

(** A timer started at 0, refreshed at 10 s and paused: the tick at
    11 s changes nothing. *)
Lemma C9_interval_follows_state_witness :
  let sys := steps "user" (mount 0)
               [ActStart 0 ok; ActTick 10000; ActPause 10500 ok] in
  interval sys = None
  /\ step "user" sys (ActTick 11000) = sys
  /\ elapsedSeconds (component sys) = 10.
Proof.
  cbv zeta.
  pose proof (C9_interval_follows_state "user" 0
                [ActStart 0 ok; ActTick 10000; ActPause 10500 ok])
    as (Inv & Idle & _).
  cbv zeta in Inv, Idle. unfold intervalInv in Inv.
  split; [| split].
  - rewrite Inv. vm_compute. reflexivity.
  - apply Idle. right; right; left. vm_compute. reflexivity.
  - vm_compute. reflexivity.
Defined.

(** ** Pause and resume *)

Lemma sameTime_refl (a : option Date) : sameTime a a = true.
Proof. destruct a; simpl; [apply Z.eqb_refl | reflexivity]. Qed.

Lemma sameDeps_fields (s s' : State) :
  isTimerActive s = isTimerActive s' ->
  timerStartTime s = timerStartTime s' ->
  isPaused s = isPaused s' ->
  sameDeps s s' = true.
Proof.
  intros A B C. unfold sameDeps. rewrite A, B, C.
  rewrite !Bool.eqb_reflx, sameTime_refl. reflexivity.
Qed.

Lemma sameDeps_elapsed (s : State) (n : Z) :
  sameDeps s (applySetter (setElapsedSeconds n) s) = true.
Proof. apply sameDeps_fields; reflexivity. Qed.

Lemma step_tick_running (uid : string) (sys : Sys) (t0 now : Date) :
  mounted sys = true ->
  interval sys = Some t0 ->
  let sys' := step uid sys (ActTick now) in
  elapsedSeconds (component sys') = differenceInSeconds now t0
  /\ interval sys' = Some t0
  /\ mounted sys' = true.
Proof.
  intros Hm Hi. cbv zeta. unfold step. cbn [offered]. rewrite Hm. cbn [andb].
  unfold tick. rewrite Hi. unfold commit. cbn [component interval mounted].
  rewrite sameDeps_elapsed. repeat split. exact Hi.
Qed.

Lemma handleResumeTimer_keeps_elapsed (uid : string) (s : State)
    (resp : Outcome unit) :
  let x := run (handleResumeTimer uid s resp) s in
  elapsedSeconds (finalState x) = elapsedSeconds s
  /\ timerStartTime (finalState x) = timerStartTime s.
Proof. destruct resp as [[] | e]; split; reflexivity. Qed.

Lemma step_tick_component (uid : string) (sys : Sys) (t0 now : Date) :
  mounted sys = true ->
  interval sys = Some t0 ->
  component (step uid sys (ActTick now))
  = applySetter (setElapsedSeconds (differenceInSeconds now t0)) (component sys).
Proof.
  intros Hm Hi. unfold step. cbn [offered]. rewrite Hm. cbn [andb].
  unfold tick. rewrite Hi. reflexivity.
Qed.

(** C7: a running timer with start time [t0] is refreshed and paused at
    [p], resumed at [r], a second or more later, and refreshed again at
    [now].  The pause freezes the display at the whole seconds from [t0]
    to [p], and the resume leaves that value in place; but the resume
    records nothing and the start time is the one before the pause, so
    the tick after the resume shows the whole seconds from [t0] to
    [now]: the seconds spent paused are counted, and the display is not
    the frozen value plus the seconds run since the resume. *)
Theorem C7_pause_is_counted_after_resume (uid : string) (sys : Sys)
    (t0 p r now : Date) :
  mounted sys = true ->
  isTimerActive (component sys) = true ->
  isPaused (component sys) = false ->
  timerStartTime (component sys) = Some t0 ->
  interval sys = Some t0 ->
  valueOf t0 <= valueOf p ->
  valueOf p + 1000 <= valueOf r ->
  valueOf r <= valueOf now ->
  let paused := steps uid sys [ActTick p; ActPause p ok] in
  let resumed := step uid paused (ActResume ok) in
  let frozen := elapsedSeconds (component paused) in
  let shown := elapsedSeconds (component (step uid resumed (ActTick now))) in
  frozen = (valueOf p - valueOf t0) / 1000
  /\ interval paused = None
  /\ elapsedSeconds (component resumed) = frozen
  /\ shown = (valueOf now - valueOf t0) / 1000
  /\ frozen + (valueOf r - valueOf p) / 1000 + (valueOf now - valueOf r) / 1000
     <= shown
  /\ ~ continuesFrom frozen r now shown.
Proof.
  intros Hm Ha Hp Ht Hi L1 L2 L3. cbv zeta. unfold steps. cbn [fold_left].
  destruct (step_tick_running uid sys t0 p Hm Hi) as (E1 & I1 & M1).
  cbv zeta in E1, I1, M1.
  pose proof (step_tick_component uid sys t0 p Hm Hi) as C1.
  set (sys1 := step uid sys (ActTick p)) in *.
  assert (step uid sys1 (ActPause p ok)
          = runHandler (handlePauseTimer uid (component sys1) p ok) sys1) as ->.
  { unfold step. cbn [offered]. rewrite M1, C1. cbn. rewrite Ha, Hp.
    reflexivity. }
  set (sys2 := runHandler _ sys1).
  assert (component sys2
          = applySetter (setIsLoading false)
              (applySetter (setIsPaused true)
                 (applySetter (setIsLoading true) (component sys1)))) as C2
    by reflexivity.
  assert (mounted sys2 = true) as M2 by reflexivity.
  assert (interval sys2 = None) as I2.
  { unfold sys2, runHandler. rewrite commit_changed_deps.
    - apply timerEffect_none. right; right. reflexivity.
    - unfold sameDeps. rewrite C1. cbn. rewrite Hp. cbn.
      apply andb_false_r. }
  assert (step uid sys2 (ActResume ok)
          = runHandler (handleResumeTimer uid (component sys2) ok) sys2) as ->.
  { unfold step. cbn [offered]. rewrite M2, C2, C1. cbn. rewrite Ha.
    reflexivity. }
  set (sys3 := runHandler _ sys2).
  assert (elapsedSeconds (component sys3) = elapsedSeconds (component sys2))
    as E3 by reflexivity.
  assert (mounted sys3 = true) as M3 by reflexivity.
  assert (interval sys3 = Some t0) as I3.
  { unfold sys3, runHandler. rewrite commit_changed_deps.
    - unfold timerEffect. rewrite C2, C1. cbn. rewrite Ha, Ht. reflexivity.
    - unfold sameDeps. rewrite C2. cbn. apply andb_false_r. }
  destruct (step_tick_running uid sys3 t0 now M3 I3) as (E4 & _ & _).
  cbv zeta in E4. rewrite E4, E3.
  assert (elapsedSeconds (component sys2) = differenceInSeconds p t0) as E2
    by (rewrite C2, C1; reflexivity).
  unfold continuesFrom. rewrite E2.
  unfold differenceInSeconds, differenceInMilliseconds, msPerSecond,
    valueOf in *.
  rewrite !Z.quot_div_nonneg by lia.
  split; [reflexivity |]. split; [exact I2 |]. split; [reflexivity |].
  split; [reflexivity |]. split.
  - Z.to_euclidean_division_equations; lia.
  - intros K. Z.to_euclidean_division_equations; lia.
Qed.

(** A timer started at 0 and paused at 10 s with 10 seconds shown is
    resumed at 70 s; the tick at 71 s shows 71 seconds, not 11. *)
Lemma C7_pause_is_counted_after_resume_witness :
  let sys := steps "user" (mount 0) [ActStart 0 ok] in
  let paused := steps "user" sys [ActTick 10000; ActPause 10000 ok] in
  let resumed := step "user" paused (ActResume ok) in
  let frozen := elapsedSeconds (component paused) in
  let shown := elapsedSeconds (component (step "user" resumed (ActTick 71000))) in
  frozen = 10
  /\ elapsedSeconds (component resumed) = 10
  /\ shown = 71
  /\ ~ continuesFrom frozen 70000 71000 shown.
Proof.
  cbv zeta.
  pose proof (C7_pause_is_counted_after_resume "user"
                (steps "user" (mount 0) [ActStart 0 ok]) 0 10000 70000 71000)
    as T.
  cbv zeta in T.
  destruct T as (A & _ & B & C & _ & D);
    try (vm_compute; first [reflexivity | discriminate]).
  split; [rewrite A; vm_compute; reflexivity |].
  split; [rewrite B, A; vm_compute; reflexivity |].
  split; [rewrite C; vm_compute; reflexivity | exact D].
Defined.

(** * Further properties of the component *)

(** ** Time labels *)

Lemma below_100_cases (P : Z -> Prop) :
  Forall P (map Z.of_nat (seq 0 100)) -> forall n, 0 <= n < 100 -> P n.
Proof.
  intros F n Hn. rewrite Forall_forall in F. apply F.
  rewrite <- (Z2Nat.id n) by lia. apply in_map. apply in_seq. lia.
Qed.

Lemma Forall_check {A} (f : A -> bool) (l : list A) :
  forallb f l = true -> Forall (fun x => f x = true) l.
Proof. intros H. apply Forall_forall. apply forallb_forall. exact H. Qed.

Lemma pad2_length (n : Z) : 0 <= n < 100 -> String.length (pad2 n) = 2%nat.
Proof.
  revert n. apply below_100_cases.
  apply (Forall_impl _ (P := fun x => Nat.eqb (String.length (pad2 x)) 2 = true)).
  - intros a H. apply Nat.eqb_eq. exact H.
  - apply Forall_check. vm_compute. reflexivity.
Qed.

Lemma pad2_inj (a b : Z) :
  0 <= a < 100 -> 0 <= b < 100 -> pad2 a = pad2 b -> a = b.
Proof.
  intros Ha Hb. revert b Hb. revert a Ha.
  apply (below_100_cases
           (fun a => forall b, 0 <= b < 100 -> pad2 a = pad2 b -> a = b)).
  apply (Forall_impl _
           (P := fun a =>
                   forallb (fun b => implb (String.eqb (pad2 a) (pad2 b))
                                       (Z.eqb a b))
                     (map Z.of_nat (seq 0 100)) = true)).
  - intros a H b Hb E.
    pose proof (proj1 (forallb_forall _ _) H b) as K.
    assert (In b (map Z.of_nat (seq 0 100))) as I.
    { rewrite <- (Z2Nat.id b) by lia. apply in_map. apply in_seq. lia. }
    specialize (K I). cbv beta in K.
    apply (proj2 (String.eqb_eq _ _)) in E.
    rewrite E in K. apply Z.eqb_eq. exact K.
  - apply Forall_check. vm_compute. reflexivity.
Qed.

Lemma append_length (a b : string) :
  String.length (append a b) = (String.length a + String.length b)%nat.
Proof. induction a as [| c a IH]; simpl; [reflexivity | rewrite IH; reflexivity]. Qed.

Lemma append_same_length_inj (a a' b b' : string) :
  String.length a = String.length a' ->
  append a b = append a' b' -> a = a' /\ b = b'.
Proof.
  revert a'. induction a as [| c a IH]; intros [| c' a'] L E;
    simpl in *; try discriminate.
  - split; [reflexivity | exact E].
  - inversion E; subst. inversion L as [L'].
    destruct (IH a' L' H1) as [-> ->]. split; reflexivity.
Qed.

Lemma formatTimerDisplay_eq (seconds : Z) :
  formatTimerDisplay seconds
  = let '(h, m, sec) := timerFields seconds in
    append (pad2 h) (append ":" (append (pad2 m) (append ":" (pad2 sec)))).
Proof. reflexivity. Qed.

Lemma timerFields_nonneg (seconds h m sec : Z) :
  0 <= seconds ->
  timerFields seconds = (h, m, sec) ->
  h * 3600 + m * 60 + sec = seconds
  /\ 0 <= h /\ 0 <= m < 60 /\ 0 <= sec < 60.
Proof.
  intros H E. unfold timerFields in E. inversion E; subst; clear E.
  rewrite !Z.rem_mod_nonneg by lia.
  pose proof (Z.div_mod seconds 3600 ltac:(lia)) as D1.
  pose proof (Z.mod_pos_bound seconds 3600 ltac:(lia)) as B1.
  pose proof (Z.div_mod (seconds mod 3600) 60 ltac:(lia)) as D2.
  pose proof (Z.mod_pos_bound (seconds mod 3600) 60 ltac:(lia)) as B2.
  assert ((seconds mod 3600) mod 60 = seconds mod 60) as E60.
  { apply Z.mod_mod_divide. exists 60. lia. }
  rewrite E60 in D2, B2.
  assert (0 <= seconds / 3600) by (apply Z.div_pos; lia).
  assert (0 <= (seconds mod 3600) / 60) by (apply Z.div_pos; lia).
  repeat split; try lia.
Qed.

(** X1: the display of a number of seconds that is not negative: hours,
    minutes and seconds recompose to the number, with minutes and
    seconds below sixty. *)
Theorem formatTimerDisplay_decomposes (seconds h m sec : Z) :
  0 <= seconds ->
  timerFields seconds = (h, m, sec) ->
  h * 3600 + m * 60 + sec = seconds
  /\ 0 <= h /\ 0 <= m < 60 /\ 0 <= sec < 60
  /\ formatTimerDisplay seconds
     = append (pad2 h) (append ":" (append (pad2 m) (append ":" (pad2 sec)))).
Proof.
  intros H E.
  destruct (timerFields_nonneg seconds h m sec H E) as (A & B & C & D).
  repeat split; try lia.
  rewrite formatTimerDisplay_eq, E. reflexivity.
Qed.

Lemma formatTimerDisplay_decomposes_witness :
  3725 = 3725
  /\ 0 <= 1 /\ 0 <= 2 < 60 /\ 0 <= 5 < 60
  /\ formatTimerDisplay 3725 = "01:02:05"%string.
Proof.
  pose proof (formatTimerDisplay_decomposes 3725 1 2 5 ltac:(lia) eq_refl)
    as (A & B & C & D & E).
  repeat split; try lia.
Defined.

Lemma timerFields_below_100h (seconds h m sec : Z) :
  0 <= seconds < 360000 ->
  timerFields seconds = (h, m, sec) ->
  0 <= h < 100 /\ 0 <= m < 100 /\ 0 <= sec < 100.
Proof.
  intros H E.
  destruct (timerFields_nonneg seconds h m sec ltac:(lia) E) as (A & B & C & D).
  repeat split; lia.
Qed.

(** X2: below one hundred hours the display has eight characters, and two
    different numbers of seconds are displayed differently. *)
Theorem formatTimerDisplay_injective (a b : Z) :
  0 <= a < 360000 ->
  0 <= b < 360000 ->
  String.length (formatTimerDisplay a) = 8%nat
  /\ (formatTimerDisplay a = formatTimerDisplay b -> a = b).
Proof.
  intros Ha Hb.
  destruct (timerFields a) as [[h m] sec] eqn:Ea.
  destruct (timerFields b) as [[h' m'] sec'] eqn:Eb.
  destruct (timerFields_below_100h a h m sec Ha Ea) as (H1 & H2 & H3).
  destruct (timerFields_below_100h b h' m' sec' Hb Eb) as (H1' & H2' & H3').
  destruct (timerFields_nonneg a h m sec ltac:(lia) Ea) as (Ra & _).
  destruct (timerFields_nonneg b h' m' sec' ltac:(lia) Eb) as (Rb & _).
  rewrite !formatTimerDisplay_eq, Ea, Eb. split.
  - rewrite !append_length, !pad2_length by lia. reflexivity.
  - intros E.
    apply append_same_length_inj in E as [E1 E];
      [| rewrite !pad2_length by lia; reflexivity].
    apply (append_same_length_inj ":" ":") in E as [_ E]; [| reflexivity].
    apply append_same_length_inj in E as [E2 E];
      [| rewrite !pad2_length by lia; reflexivity].
    apply (append_same_length_inj ":" ":") in E as [_ E3]; [| reflexivity].
    apply pad2_inj in E1, E2, E3; try lia.
Qed.

Lemma formatTimerDisplay_injective_witness :
  String.length (formatTimerDisplay 3725) = 8%nat
  /\ (formatTimerDisplay 3725 = formatTimerDisplay 3726 -> 3725 = 3726)
  /\ formatTimerDisplay 3725 = "01:02:05"%string
  /\ formatTimerDisplay 3726 = "01:02:06"%string
  /\ formatTimerDisplay 3725 <> formatTimerDisplay 3726.
Proof.
  destruct (formatTimerDisplay_injective 3725 3726) as [L I]; try lia.
  split; [exact L |]. split; [exact I |].
  split; [vm_compute; reflexivity |]. split; [vm_compute; reflexivity |].
  intros E. apply I in E. lia.
Defined.

(** X3: the label of an hour of the day has five characters, and two
    different hours have different labels. *)
Theorem formatTime_labels (h h' : Z) :
  0 <= h <= 23 ->
  0 <= h' <= 23 ->
  String.length (formatTime h) = 5%nat
  /\ (formatTime h = formatTime h' -> h = h').
Proof.
  intros Hh Hh'. unfold formatTime. fold (pad2 h). fold (pad2 h'). split.
  - rewrite append_length, pad2_length by lia. reflexivity.
  - intros E. apply append_same_length_inj in E as [E _];
      [| rewrite !pad2_length by lia; reflexivity].
    apply pad2_inj in E; lia.
Qed.

Lemma formatTime_labels_witness :
  String.length (formatTime 8) = 5%nat
  /\ (formatTime 8 = formatTime 20 -> 8 = 20).
Proof. apply (formatTime_labels 8 20); lia. Defined.

(** X4: a negative number of seconds is displayed with a negative hour and
    with minutes and seconds that are not positive; the three recompose
    to the number only when it is a whole number of hours. *)
Theorem formatTimerDisplay_negative (seconds h m sec : Z) :
  seconds < 0 ->
  timerFields seconds = (h, m, sec) ->
  h < 0 /\ m <= 0 /\ sec <= 0
  /\ (h * 3600 + m * 60 + sec = seconds <-> Z.rem seconds 3600 = 0).
Proof.
  intros H E. unfold timerFields in E. inversion E; subst; clear E.
  Z.to_euclidean_division_equations; lia.
Qed.

Lemma formatTimerDisplay_negative_witness :
  -1 < 0 /\ -1 <= 0 /\ -4 <= 0
  /\ (-1 * 3600 + -1 * 60 + -4 = -4 <-> Z.rem (-4) 3600 = 0)
  /\ formatTimerDisplay (-4) = "-1:-1:-4"%string.
Proof.
  pose proof (formatTimerDisplay_negative (-4) (-1) (-1) (-4) ltac:(lia) eq_refl)
    as (A & B & C & D).
  repeat split; try lia; apply D.
Defined.

(** ** The duration preview and the submit button *)

Lemma whole_hours_total (k : Z) :
  0 < k ->
  Qle_bool (inject_Z k + inject_Z 0 / 60)%Q 0 = false
  /\ Math_round (inject_Z k + inject_Z 0 / 60)%Q = k.
Proof.
  intros H. split.
  - unfold Qle_bool, Qplus, Qdiv, Qmult, Qinv, inject_Z. simpl.
    apply Z.leb_gt. lia.
  - unfold Math_round, Qfloor, Qplus, Qdiv, Qmult, Qinv, inject_Z. simpl.
    Z.to_euclidean_division_equations; lia.
Qed.

(** Both calculators return the sentinel or a record of whole hours. *)
Lemma calculateDuration_shape (s : State) :
  (exists k, Part001.calculateDuration s
             = if k <=? 0 then DZero
               else DRecord k 0 (inject_Z k + inject_Z 0 / 60)%Q)
  /\ (exists k, Components.calculateDuration s
                = if k <=? 0 then DZero
                  else DRecord k 0 (inject_Z k + inject_Z 0 / 60)%Q).
Proof.
  split.
  - eexists. rewrite Part001_calculateDuration_eq. cbv zeta. reflexivity.
  - eexists. rewrite Components_calculateDuration_eq. cbv zeta. reflexivity.
Qed.

Lemma submitDisabled_shape (k : Z) :
  submitDisabled (if k <=? 0 then DZero
                  else DRecord k 0 (inject_Z k + inject_Z 0 / 60)%Q) = false.
Proof.
  destruct (Z.leb_spec k 0) as [L | L]; [reflexivity |].
  unfold submitDisabled, totalOf, js_le0. apply whole_hours_total. exact L.
Qed.

(** X5: the submit button is never disabled.  For a record the total is
    positive; for the sentinel [duration.total] is [undefined], and
    [undefined <= 0] is false.  The only check of a submission is the
    one inside [handleSubmit]. *)
Theorem submit_button_never_disabled (s : State) :
  submitDisabled (Part001.calculateDuration s) = false
  /\ submitDisabled (Components.calculateDuration s) = false.
Proof.
  destruct (calculateDuration_shape s) as [[k1 E1] [k2 E2]].
  rewrite E1, E2. split; apply submitDisabled_shape.
Qed.

Lemma record_total (h m : Z) :
  0 <= h -> 0 <= m < 60 ->
  Qle_bool (inject_Z h + inject_Z m / 60)%Q 0 = (h * 60 + m <=? 0)
  /\ Math_round (inject_Z h + inject_Z m / 60)%Q
     = (if m <? 30 then h else h + 1).
Proof.
  intros Hh Hm. split.
  - unfold Qle_bool, Qplus, Qdiv, Qmult, Qinv, inject_Z. simpl.
    destruct (Z.leb_spec ((h * 60 + m * 1) * 1) 0);
      destruct (Z.leb_spec (h * 60 + m) 0); try reflexivity; lia.
  - unfold Math_round, Qfloor, Qplus, Qdiv, Qmult, Qinv, inject_Z. simpl.
    destruct (Z.ltb_spec m 30); Z.to_euclidean_division_equations; lia.
Qed.

(** X6: the record that [calculateDuration] builds for an end later than
    the start, whatever the two time values: the hours are the whole
    hours between them, the minutes are the whole minutes left over
    (0..59), and together they are the whole minutes between them.  If
    the two are less than a minute apart the total is 0, the preview
    shows the message and the button is disabled; otherwise the preview
    shows the hours rounded up from 30 minutes on, with the hours and
    minutes, and the button is enabled. *)
Theorem preview_of_a_record (start end_ : Date) (h m : Z) (t : Q) :
  valueOf start < valueOf end_ ->
  durationRecord start end_ = DRecord h m t ->
  let ms := valueOf end_ - valueOf start in
  h = ms / 3600000
  /\ 0 <= m < 60
  /\ h * 60 + m = ms / 60000
  /\ durationPreview (DRecord h m t)
     = (if ms <? 60000 then PreviewInvalid
        else PreviewDuration (Some (if m <? 30 then h else h + 1))
               (Some h) (Some m))
  /\ submitDisabled (DRecord h m t) = (ms <? 60000).
Proof.
  intros L E. cbv zeta. unfold durationRecord in E. cbv zeta in E.
  inversion E as [[Eh Em Et]]. clear E.
  unfold differenceInHours, differenceInMinutes, differenceInMilliseconds,
    msPerHour, msPerMinute.
  set (ms := valueOf end_ - valueOf start) in *.
  assert (0 < ms) as Hms by (unfold ms; lia).
  rewrite !Z.quot_div_nonneg by lia.
  rewrite Z.rem_mod_nonneg by (try apply Z.div_pos; lia).
  set (hh := ms / 3600000). set (mm := (ms / 60000) mod 60).
  assert (0 <= hh) as Hh by (apply Z.div_pos; lia).
  assert (0 <= mm < 60) as Hm by (apply Z.mod_pos_bound; lia).
  assert (hh * 60 + mm = ms / 60000) as Hsum
    by (unfold hh, mm; Z.to_euclidean_division_equations; lia).
  destruct (record_total hh mm Hh Hm) as [Q1 Q2].
  assert ((hh * 60 + mm <=? 0) = (ms <? 60000)) as Hz.
  { rewrite Hsum.
    destruct (Z.leb_spec (ms / 60000) 0); destruct (Z.ltb_spec ms 60000);
      try reflexivity; Z.to_euclidean_division_equations; lia. }
  split; [reflexivity |]. split; [exact Hm |]. split; [exact Hsum |].
  unfold durationPreview, submitDisabled, totalOf, js_gt0, js_le0, hoursOf,
    minutesOf, option_map.
  rewrite Q1, Q2, Hz. destruct (ms <? 60000); split; reflexivity.
Qed.

(** Sixteen and a half hours apart: 16 h 30 m, shown as 17 hours. *)
Lemma preview_of_a_record_witness :
  durationRecord 0 59400000
  = DRecord 16 30 (inject_Z 16 + inject_Z 30 / 60)%Q
  /\ durationPreview (DRecord 16 30 (inject_Z 16 + inject_Z 30 / 60)%Q)
     = PreviewDuration (Some 17) (Some 16) (Some 30)
  /\ submitDisabled (DRecord 16 30 (inject_Z 16 + inject_Z 30 / 60)%Q) = false.
Proof.
  split; [reflexivity |].
  pose proof (preview_of_a_record 0 59400000 16 30
                (inject_Z 16 + inject_Z 30 / 60)%Q ltac:(vm_compute; reflexivity)
                eq_refl) as (_ & _ & _ & A & B).
  cbv zeta in A, B. split; [rewrite A | rewrite B]; reflexivity.
Defined.

(** ** Forms on one day, and the two copies side by side *)

Lemma computedEnd_not_overnight (s : State) :
  overnight s = false -> Part001.computedEnd s = Components.computedEnd s.
Proof.
  intros H. unfold Part001.computedEnd, Components.computedEnd.
  cbv zeta. unfold overnight in H. rewrite H. reflexivity.
Qed.

(** X8: away from the overnight case (different days, or an end hour not
    before the start hour) the two copies compute the same duration and
    their submit handlers behave alike. *)
Theorem copies_agree_unless_overnight (s : State) :
  overnight s = false ->
  Part001.calculateDuration s = Components.calculateDuration s
  /\ forall r n1 n2 w,
       Part001.handleSubmit s r n1 n2 w = Components.handleSubmit s r n1 n2 w.
Proof.
  intros H. pose proof (computedEnd_not_overnight s H) as E. split.
  - unfold Part001.calculateDuration, Components.calculateDuration.
    cbv zeta. rewrite E. reflexivity.
  - intros r n1 n2 w.
    rewrite Part001_handleSubmit_eq, Components_handleSubmit_eq.
    rewrite E. reflexivity.
Qed.

Lemma copies_agree_unless_overnight_witness :
  let s := formAt 19782 19783 20 12 in
  Part001.calculateDuration s = Components.calculateDuration s
  /\ forall r n1 n2 w,
       Part001.handleSubmit s r n1 n2 w = Components.handleSubmit s r n1 n2 w.
Proof.
  apply (copies_agree_unless_overnight (formAt 19782 19783 20 12)).
  vm_compute. reflexivity.
Defined.

(** X9: only the calendar days of the two dates and the two hours matter:
    the time of day that a date carries (the clock at the first render,
    midnight after a pick in the calendar) does not change the start,
    the end or the duration. *)
Theorem time_of_day_is_ignored (s s' : State) :
  Day (startDate s) = Day (startDate s') ->
  Day (endDate s) = Day (endDate s') ->
  startHour s = startHour s' ->
  endHour s = endHour s' ->
  Part001.computedStart s = Part001.computedStart s'
  /\ Part001.computedEnd s = Part001.computedEnd s'
  /\ Components.computedEnd s = Components.computedEnd s'
  /\ Part001.calculateDuration s = Part001.calculateDuration s'
  /\ Components.calculateDuration s = Components.calculateDuration s'.
Proof.
  intros H1 H2 H3 H4.
  assert (overnight s = overnight s') as Ho.
  { unfold overnight, toDateString. rewrite H1, H2, H3, H4. reflexivity. }
  rewrite !Part001_calculateDuration_eq, !Components_calculateDuration_eq.
  rewrite !Part001_computedStart_eq, !Part001_computedEnd_eq,
    !Components_computedEnd_eq.
  rewrite Ho, H1, H2, H3, H4. repeat split; reflexivity.
Qed.

Lemma time_of_day_is_ignored_witness :
  let s := formAt 19782 19783 20 12 in
  let s' := applySetter (setStartDate (atHour 19782 15)) s in
  Part001.computedStart s = Part001.computedStart s'
  /\ Part001.computedEnd s = Part001.computedEnd s'
  /\ Components.computedEnd s = Components.computedEnd s'
  /\ Part001.calculateDuration s = Part001.calculateDuration s'
  /\ Components.calculateDuration s = Components.calculateDuration s'.
Proof.
  apply (time_of_day_is_ignored (formAt 19782 19783 20 12)
           (applySetter (setStartDate (atHour 19782 15))
              (formAt 19782 19783 20 12)));
    vm_compute; reflexivity.
Defined.

(** ** Submitting the form *)

Lemma Part001_handleSubmit_valid (s : State) (r : Outcome unit)
    (n1 n2 : Date) :
  valueOf (Part001.computedStart s) < valueOf (Part001.computedEnd s) ->
  run (Part001.handleSubmit s r n1 n2) s
  = match r with
    | Resolved _ =>
        (Resolved tt,
         mkWorld
           (applySetter (setNotes "")
              (applySetter (setEndHour 12)
                 (applySetter (setStartHour 20)
                    (applySetter (setEndDate n2)
                       (applySetter (setStartDate n1) s)))))
           [EvPreventDefault;
            EvOnAddFast (Part001.computedStart s) (Part001.computedEnd s)
              (notes s);
            EvSet (setStartDate n1); EvSet (setEndDate n2);
            EvSet (setStartHour 20); EvSet (setEndHour 12);
            EvSet (setNotes "")])
    | Rejected e =>
        (Rejected e,
         mkWorld s
           [EvPreventDefault;
            EvOnAddFast (Part001.computedStart s) (Part001.computedEnd s)
              (notes s)])
    end.
Proof.
  intros H. rewrite Part001_handleSubmit_eq.
  unfold run, bind, emit. cbn [w_state w_trace].
  assert (date_le (Part001.computedEnd s) (Part001.computedStart s) = false)
    as -> by (unfold date_le; apply Z.leb_gt; exact H).
  destruct r as [[] | e]; reflexivity.
Qed.

Lemma Components_handleSubmit_valid (s : State) (r : Outcome unit)
    (n1 n2 : Date) :
  valueOf (Components.computedStart s) < valueOf (Components.computedEnd s) ->
  run (Components.handleSubmit s r n1 n2) s
  = match r with
    | Resolved _ =>
        (Resolved tt,
         mkWorld
           (applySetter (setNotes "")
              (applySetter (setEndHour 12)
                 (applySetter (setStartHour 20)
                    (applySetter (setEndDate n2)
                       (applySetter (setStartDate n1) s)))))
           [EvPreventDefault;
            EvOnAddFast (Components.computedStart s)
              (Components.computedEnd s) (notes s);
            EvSet (setStartDate n1); EvSet (setEndDate n2);
            EvSet (setStartHour 20); EvSet (setEndHour 12);
            EvSet (setNotes "")])
    | Rejected e =>
        (Rejected e,
         mkWorld s
           [EvPreventDefault;
            EvOnAddFast (Components.computedStart s)
              (Components.computedEnd s) (notes s)])
    end.
Proof.
  intros H. rewrite Components_handleSubmit_eq.
  unfold run, bind, emit. cbn [w_state w_trace].
  assert (date_le (Components.computedEnd s) (Components.computedStart s)
          = false)
    as -> by (unfold date_le; apply Z.leb_gt; exact H).
  destruct r as [[] | e]; reflexivity.
Qed.

(** X10: when [onAddFast] throws during a valid submission, the error leaves
    [handleSubmit] (there is no [try]), the form is not reset and no
    alert is shown; in both copies. *)
Theorem submit_propagates_callback_error (s : State) (e : Error)
    (n1 n2 : Date) :
  valueOf (Components.computedStart s) < valueOf (Components.computedEnd s) ->
  let p := run (Part001.handleSubmit s (Rejected e) n1 n2) s in
  let c := run (Components.handleSubmit s (Rejected e) n1 n2) s in
  (outcome p = Rejected e /\ finalState p = s /\ alerted (effects p) = false
   /\ settersBeforeCall (effects p) = [])
  /\ (outcome c = Rejected e /\ finalState c = s /\ alerted (effects c) = false
      /\ settersBeforeCall (effects c) = []).
Proof.
  intros H. cbv zeta.
  assert (valueOf (Part001.computedStart s) < valueOf (Part001.computedEnd s))
    as H'.
  { pose proof (computedEnd_le s). rewrite <- computedStart_same. lia. }
  rewrite (Part001_handleSubmit_valid s (Rejected e) n1 n2 H').
  rewrite (Components_handleSubmit_valid s (Rejected e) n1 n2 H).
  repeat split.
Qed.

Lemma submit_propagates_callback_error_witness :
  let s := formAt 19782 19783 20 12 in
  let p := run (Part001.handleSubmit s failed 0 0) s in
  let c := run (Components.handleSubmit s failed 0 0) s in
  (outcome p = failed /\ finalState p = s /\ alerted (effects p) = false
   /\ settersBeforeCall (effects p) = [])
  /\ (outcome c = failed /\ finalState c = s /\ alerted (effects c) = false
      /\ settersBeforeCall (effects c) = []).
Proof.
  apply (submit_propagates_callback_error (formAt 19782 19783 20 12)
           "backend unavailable"%string 0 0).
  vm_compute. reflexivity.
Defined.

Lemma reset_form_fields (s : State) (n1 n2 : Date) :
  let s' := applySetter (setNotes "")
              (applySetter (setEndHour 12)
                 (applySetter (setStartHour 20)
                    (applySetter (setEndDate n2)
                       (applySetter (setStartDate n1) s)))) in
  startDate s' = n1 /\ endDate s' = n2 /\ startHour s' = 20
  /\ endHour s' = 12 /\ notes s' = ""%string.
Proof. repeat split. Qed.

(** X11: In [src/unnamed/part_001], a submission that succeeds resets
    the form to 20:00 - 12:00 on the current day with empty notes and
    leaves the timer alone; when the two clock readings of the reset
    fall on one day, the reset form is itself valid: the calculator
    returns a record for it, and submitting it again hands over one
    fast that starts on that day and ends on the next. *)
Theorem Part001_submit_resets_to_valid_form (s : State) (n1 n2 n3 n4 : Date) :
  valueOf (Part001.computedStart s) < valueOf (Part001.computedEnd s) ->
  Day n1 = Day n2 ->
  let s' := finalState (run (Part001.handleSubmit s ok n1 n2) s) in
  (startDate s' = n1 /\ endDate s' = n2 /\ startHour s' = 20
   /\ endHour s' = 12 /\ notes s' = ""%string)
  /\ (isTimerActive s' = isTimerActive s
      /\ timerStartTime s' = timerStartTime s
      /\ elapsedSeconds s' = elapsedSeconds s
      /\ isPaused s' = isPaused s /\ timerNotes s' = timerNotes s)
  /\ (exists h m t, Part001.calculateDuration s' = DRecord h m t)
  /\ fastsAdded (effects (run (Part001.handleSubmit s' ok n3 n4) s'))
     = [(Part001.computedStart s', Part001.computedEnd s', ""%string)]
  /\ valueOf (Part001.computedStart s') < valueOf (Part001.computedEnd s')
  /\ Day (Part001.computedStart s') = Day n1
  /\ Day (Part001.computedEnd s') = Day n1 + 1.
Proof.
  intros H Hd. cbv zeta.
  rewrite (Part001_handleSubmit_valid s ok n1 n2 H). unfold ok.
  unfold finalState. cbn [snd w_state].
  set (s' := applySetter (setNotes "") _).
  assert (startDate s' = n1 /\ endDate s' = n2 /\ startHour s' = 20
          /\ endHour s' = 12 /\ notes s' = ""%string) as F
    by (repeat split).
  destruct F as (F1 & F2 & F3 & F4 & F5).
  assert (overnight s' = true) as Ho.
  { apply overnight_true; [unfold toDateString; rewrite F1, F2; exact Hd |].
    rewrite F3, F4. lia. }
  assert (Part001.computedStart s' = atHour (Day n1) 20) as Es
    by (rewrite Part001_computedStart_eq, F1, F3; reflexivity).
  assert (Part001.computedEnd s' = atHour (Day n1 + 1) 12) as Ee
    by (rewrite Part001_computedEnd_eq, Ho, F2, F4, <- Hd; reflexivity).
  assert (valueOf (Part001.computedStart s') < valueOf (Part001.computedEnd s'))
    as Lt.
  { rewrite Es, Ee. unfold valueOf, atHour, msPerDay, msPerHour. lia. }
  split; [repeat split |]. split; [repeat split |]. split.
  - unfold Part001.calculateDuration, date_le. cbv zeta.
    destruct (Z.leb_spec (valueOf (Part001.computedEnd s'))
                (valueOf (Part001.computedStart s'))); [lia |].
    unfold durationRecord. cbv zeta. eexists _, _, _. reflexivity.
  - split.
    + rewrite (Part001_handleSubmit_valid s' (Resolved tt) n3 n4 Lt).
      unfold effects. cbn [snd w_trace fastsAdded]. rewrite F5. reflexivity.
    + split; [exact Lt |]. rewrite Es, Ee.
      split; apply Day_atHour; lia.
Qed.

Lemma Part001_submit_resets_to_valid_form_witness :
  let s := formAt 19782 19783 20 12 in
  let s' := finalState (run (Part001.handleSubmit s ok 1710000000000
                               1710000000001) s) in
  (exists h m t, Part001.calculateDuration s' = DRecord h m t)
  /\ Day (Part001.computedStart s') = 19791
  /\ Day (Part001.computedEnd s') = 19792.
Proof.
  cbv zeta.
  pose proof (Part001_submit_resets_to_valid_form (formAt 19782 19783 20 12)
                1710000000000 1710000000001 0 0) as T.
  cbv zeta in T.
  destruct T as (_ & _ & A & _ & _ & B & C);
    [vm_compute; reflexivity | vm_compute; reflexivity |].
  split; [exact A |]. split; [rewrite B | rewrite C]; vm_compute; reflexivity.
Defined.

(** X12: In [src/src/components/CalendarFastEntry.tsx], a submission that
    succeeds resets the form in the same way, but the reset form (20:00
    to 12:00 on one day) is one this copy rejects: its preview is the
    sentinel and submitting it again only alerts. *)
Theorem Components_submit_resets_to_rejected_form (s : State)
    (n1 n2 n3 n4 : Date) (r : Outcome unit) :
  valueOf (Components.computedStart s) < valueOf (Components.computedEnd s) ->
  Day n1 = Day n2 ->
  let s' := finalState (run (Components.handleSubmit s ok n1 n2) s) in
  (startDate s' = n1 /\ endDate s' = n2 /\ startHour s' = 20
   /\ endHour s' = 12 /\ notes s' = ""%string)
  /\ Components.calculateDuration s' = DZero
  /\ effects (run (Components.handleSubmit s' r n3 n4) s')
     = [EvPreventDefault; EvAlert "End time must be after start time"].
Proof.
  intros H Hd. cbv zeta.
  rewrite (Components_handleSubmit_valid s ok n1 n2 H). unfold ok.
  unfold finalState. cbn [snd w_state].
  set (s' := applySetter (setNotes "") _).
  assert (startDate s' = n1 /\ endDate s' = n2 /\ startHour s' = 20
          /\ endHour s' = 12 /\ notes s' = ""%string) as F
    by (repeat split).
  destruct F as (F1 & F2 & F3 & F4 & F5).
  assert (date_le (Components.computedEnd s') (Components.computedStart s')
          = true) as Ele.
  { rewrite Components_computedEnd_eq, Components_computedStart_eq,
      date_le_atHour, F1, F2, F3, F4, Hd. apply Z.leb_le. lia. }
  split; [repeat split |]. split.
  - unfold Components.calculateDuration. cbv zeta. rewrite Ele. reflexivity.
  - rewrite Components_handleSubmit_eq.
    unfold run, effects, bind, emit. cbn [fst snd w_state w_trace].
    rewrite Ele. reflexivity.
Qed.

Lemma Components_submit_resets_to_rejected_form_witness :
  let s := formAt 19782 19783 20 12 in
  let s' := finalState (run (Components.handleSubmit s ok 1710000000000
                               1710000000001) s) in
  Components.calculateDuration s' = DZero
  /\ effects (run (Components.handleSubmit s' ok 0 0) s')
     = [EvPreventDefault; EvAlert "End time must be after start time"].
Proof.
  cbv zeta.
  pose proof (Components_submit_resets_to_rejected_form
                (formAt 19782 19783 20 12)
                1710000000000 1710000000001 0 0 ok) as T.
  cbv zeta in T.
  destruct T as (_ & A & B);
    [vm_compute; reflexivity | vm_compute; reflexivity |].
  split; [exact A | exact B].
Defined.

(** ** The timer as the page drives it *)

Lemma component_commit (sys : Sys) (s' : State) (evs : list Event) :
  component (commit sys s' evs) = s'.
Proof. reflexivity. Qed.

Lemma timerInv_elapsed (s : State) (n : Z) :
  timerInv s -> timerInv (applySetter (setElapsedSeconds n) s).
Proof. intros H. exact H. Qed.

Ltac timer_inv I1 I2 I3 :=
  cbn;
  split;
  [ first [ exact I1
          | split; [intros _; discriminate | intros _; reflexivity]
          | split; [discriminate | intros K; contradiction K; reflexivity] ]
  | split;
    [ first [ exact I2
            | intros K; first [reflexivity | discriminate K | assumption] ]
    | first [exact I3 | reflexivity] ] ].

Lemma step_timerInv (uid : string) (sys : Sys) (a : Action) :
  timerInv (component sys) -> timerInv (component (step uid sys a)).
Proof.
  intros Inv. unfold step.
  destruct (mounted sys); [| exact Inv]. cbn [andb].
  destruct (offered a (component sys)) eqn:Off; [| exact Inv].
  destruct Inv as (I1 & I2 & I3).
  destruct a as [now | resp now | now resp | now resp | resp
                | now addResp delResp | newNotes resp |];
    cbn [offered] in Off.
  - unfold tick. destruct (interval sys); [| exact (conj I1 (conj I2 I3))].
    rewrite component_commit. timer_inv I1 I2 I3.
  - unfold runHandler. rewrite component_commit.
    destruct resp as [[td |] | e]; [| timer_inv I1 I2 I3 | timer_inv I1 I2 I3].
    destruct td as [st p pa n]. unfold loadTimerFromBackend.
    cbn [td_startTime td_isPaused td_pausedAt td_notes].
    destruct p; [destruct pa |]; timer_inv I1 I2 I3.
  - unfold runHandler. rewrite component_commit.
    destruct resp as [[] | e]; timer_inv I1 I2 I3.
  - unfold runHandler. rewrite component_commit.
    apply andb_prop in Off as [Oa _].
    destruct resp as [[] | e]; timer_inv I1 I2 I3.
  - unfold runHandler. rewrite component_commit.
    destruct resp as [[] | e]; timer_inv I1 I2 I3.
  - unfold runHandler. rewrite component_commit. unfold handleStopTimer.
    destruct (timerStartTime (component sys)) as [t |] eqn:Et;
      [| exfalso; apply (proj1 I1 Off); reflexivity].
    rewrite <- Et in I1.
    destruct addResp as [[] | e1]; [destruct delResp as [[] | e2] |];
      timer_inv I1 I2 I3.
  - unfold runHandler. rewrite component_commit. unfold handleUpdateTimerNotes.
    rewrite Off. destruct resp as [[] | e]; timer_inv I1 I2 I3.
  - exact (conj I1 (conj I2 I3)).
Qed.

Lemma steps_timerInv (uid : string) (acts : list Action) :
  forall sys, timerInv (component sys) ->
              timerInv (component (steps uid sys acts)).
Proof.
  unfold steps. induction acts as [| a acts IH]; intros sys H.
  - exact H.
  - cbn [fold_left]. apply IH. apply step_timerInv. exact H.
Qed.

Lemma mount_timerInv (now : Date) : timerInv (component (mount now)).
Proof.
  repeat split; try reflexivity; try discriminate.
  intros K. contradiction K. reflexivity.
Qed.

(** X13: in every state the component reaches from its mount, the timer is
    active exactly when it has a start time, a paused timer is active,
    and no handler has left the loading flag set.  So whenever the stop
    button is on the page, [handleStopTimer] finds a start time and
    hands over exactly one fast. *)
Theorem timer_state_invariants (uid : string) (now0 : Date)
    (acts : list Action) :
  let s := component (steps uid (mount now0) acts) in
  timerInv s
  /\ (forall now ra rd,
         offered (ActStop now ra rd) s = true ->
         exists t,
           timerStartTime s = Some t
           /\ fastsAdded (effects (run (handleStopTimer uid s now ra rd) s))
              = [(t, now, timerNotes s)]).
Proof.
  cbv zeta. set (s := component (steps uid (mount now0) acts)).
  assert (timerInv s) as Inv by (apply steps_timerInv, mount_timerInv).
  split; [exact Inv |].
  intros now ra rd Off. cbn [offered] in Off.
  destruct Inv as (I1 & _).
  destruct (timerStartTime s) as [t |] eqn:Et.
  - exists t. split; [reflexivity |].
    rewrite handleStopTimer_fasts, Et. reflexivity.
  - exfalso. apply (proj1 I1 Off). reflexivity.
Qed.

Lemma timer_state_invariants_witness :
  let s := component (steps "user" (mount 0)
                        [ActStart 1000 ok; ActNotes "day one" failed]) in
  exists t,
    timerStartTime s = Some t
    /\ fastsAdded (effects (run (handleStopTimer "user" s 5000 ok ok) s))
       = [(t, 5000, timerNotes s)].
Proof.
  cbv zeta.
  apply (proj2 (timer_state_invariants "user" 0
                  [ActStart 1000 ok; ActNotes "day one" failed]) 5000 ok ok).
  vm_compute. reflexivity.
Defined.

Lemma fastsAdded_app (l1 l2 : list Event) :
  fastsAdded (l1 ++ l2) = fastsAdded l1 ++ fastsAdded l2.
Proof.
  induction l1 as [| e l1 IH]; [reflexivity |].
  destruct e; cbn [app fastsAdded]; rewrite IH; reflexivity.
Qed.

(** X14: start, type a note, stop: the fast handed to the history store runs
    from the clock at the start to the clock at the stop and carries the
    note, whether or not the backend accepted the note; afterwards the
    timer is back in its idle state and no interval is installed. *)
Theorem notes_reach_the_fast (uid : string) (sys : Sys) (t0 t1 : Date)
    (n : string) (r : Outcome unit) :
  mounted sys = true ->
  isTimerActive (component sys) = false ->
  let sys' := steps uid sys [ActStart t0 ok; ActNotes n r; ActStop t1 ok ok] in
  fastsAdded (history sys') = fastsAdded (history sys) ++ [(t0, t1, n)]
  /\ isTimerActive (component sys') = false
  /\ timerStartTime (component sys') = None
  /\ elapsedSeconds (component sys') = 0
  /\ isPaused (component sys') = false
  /\ timerNotes (component sys') = ""%string
  /\ interval sys' = None.
Proof.
  intros Hm Ha. cbv zeta. unfold steps. cbn [fold_left].
  assert (step uid sys (ActStart t0 ok)
          = runHandler (handleStartTimer uid (component sys) t0 ok) sys) as ->.
  { unfold step. cbn [offered]. rewrite Hm, Ha. reflexivity. }
  set (sys1 := runHandler _ sys).
  assert (step uid sys1 (ActNotes n r)
          = runHandler (handleUpdateTimerNotes uid (component sys1) n r) sys1)
    as -> by reflexivity.
  set (sys2 := runHandler _ sys1).
  assert (mounted sys2 = true) as M2 by reflexivity.
  assert (isTimerActive (component sys2) = true) as A2
    by (destruct r as [[] | e]; reflexivity).
  assert (timerStartTime (component sys2) = Some t0) as S2
    by (destruct r as [[] | e]; reflexivity).
  assert (timerNotes (component sys2) = n) as N2
    by (destruct r as [[] | e]; reflexivity).
  assert (fastsAdded (history sys2) = fastsAdded (history sys)) as F2.
  { unfold sys2, sys1, runHandler, commit. cbn [history].
    rewrite !fastsAdded_app. destruct r as [[] | e]; cbn;
      rewrite !app_nil_r; reflexivity. }
  assert (step uid sys2 (ActStop t1 ok ok)
          = runHandler (handleStopTimer uid (component sys2) t1 ok ok) sys2)
    as ->.
  { unfold step. cbn [offered]. rewrite M2, A2. reflexivity. }
  unfold runHandler at 1 2 3 4 5 6 7. unfold handleStopTimer. rewrite S2, N2.
  unfold commit at 1 2 3 4 5 6 7. cbn [component history interval].
  rewrite fastsAdded_app, F2.
  split; [reflexivity |]. repeat (split; [reflexivity |]).
  unfold sameDeps. rewrite A2. reflexivity.
Qed.

Lemma notes_reach_the_fast_witness :
  let sys' := steps "user" (mount 0)
                [ActStart 1000 ok; ActNotes "day one" failed;
                 ActStop 5000 ok ok] in
  fastsAdded (history sys') = [(1000, 5000, "day one"%string)]
  /\ isTimerActive (component sys') = false
  /\ timerStartTime (component sys') = None
  /\ elapsedSeconds (component sys') = 0
  /\ isPaused (component sys') = false
  /\ timerNotes (component sys') = ""%string
  /\ interval sys' = None.
Proof.
  apply (notes_reach_the_fast "user" (mount 0) 1000 5000 "day one" failed);
    reflexivity.
Defined.

(** X15: [loadTimerFromBackend] has no branch for a missing timer.  When the
    backend answers that there is none, or the request fails, the
    handler returns normally without an alert, nothing is handed to the
    history store, and a timer that is active on the page stays as it
    is, with its interval: only the loading flag is cleared. *)
Theorem load_without_stored_timer_keeps_local (uid : string) (sys : Sys)
    (now : Date) (resp : Outcome (option TimerData)) :
  mounted sys = true ->
  (resp = Resolved None \/ exists e, resp = Rejected e) ->
  let x := run (loadTimerFromBackend uid resp now) (component sys) in
  let sys' := step uid sys (ActLoad resp now) in
  outcome x = Resolved tt
  /\ alerted (effects x) = false
  /\ component sys' = applySetter (setIsLoading false) (component sys)
  /\ interval sys' = interval sys
  /\ fastsAdded (history sys') = fastsAdded (history sys).
Proof.
  intros Hm Hr. cbv zeta.
  assert (step uid sys (ActLoad resp now)
          = runHandler (loadTimerFromBackend uid resp now) sys) as ->.
  { unfold step. cbn [offered]. rewrite Hm. reflexivity. }
  unfold runHandler, commit. cbn [component interval history].
  rewrite fastsAdded_app.
  assert (sameDeps (component sys)
            (applySetter (setIsLoading false) (component sys)) = true) as Sd
    by (apply sameDeps_fields; reflexivity).
  destruct Hr as [-> | [e ->]].
  - repeat split; try reflexivity.
    + change (finalState (run (loadTimerFromBackend uid (Resolved None) now)
                            (component sys)))
        with (applySetter (setIsLoading false) (component sys)).
      rewrite Sd. reflexivity.
    + cbn. apply app_nil_r.
  - repeat split; try reflexivity.
    + change (finalState (run (loadTimerFromBackend uid (Rejected e) now)
                            (component sys)))
        with (applySetter (setIsLoading false) (component sys)).
      rewrite Sd. reflexivity.
    + cbn. apply app_nil_r.
Qed.

Lemma load_without_stored_timer_keeps_local_witness :
  let sys := steps "user" (mount 0) [ActStart 1000 ok] in
  let sys' := step "user" sys (ActLoad (Resolved None) 9000) in
  isTimerActive (component sys') = true
  /\ timerStartTime (component sys') = Some 1000
  /\ interval sys' = Some 1000.
Proof.
  cbv zeta.
  pose proof (load_without_stored_timer_keeps_local "user"
                (steps "user" (mount 0) [ActStart 1000 ok]) 9000
                (Resolved None) eq_refl (or_introl eq_refl))
    as (_ & _ & A & B & _).
  cbv zeta in A, B. rewrite A, B. vm_compute. repeat split.
Defined.

(** X16: a stored timer whose start time is a second or more ahead of the
    clock (it was started where the clock runs ahead) loads with a
    negative number of elapsed seconds, and the display then shows a
    negative hour. *)
Theorem load_future_start_shows_negative (uid : string) (s : State)
    (td : TimerData) (now : Date) :
  td_isPaused td = false ->
  valueOf now + 1000 <= valueOf (td_startTime td) ->
  let s' := finalState (run (loadTimerFromBackend uid (Resolved (Some td)) now) s) in
  elapsedSeconds s' = differenceInSeconds now (td_startTime td)
  /\ elapsedSeconds s' < 0
  /\ fst (fst (timerFields (elapsedSeconds s'))) < 0.
Proof.
  intros Hp Hn. cbv zeta. unfold loadTimerFromBackend.
  destruct td as [st p pa n]. cbn [td_startTime td_isPaused] in *. subst p.
  cbn. unfold differenceInSeconds, differenceInMilliseconds, msPerSecond,
    valueOf in *.
  repeat split; Z.to_euclidean_division_equations; lia.
Qed.

Lemma load_future_start_shows_negative_witness :
  let td := mkTimerData 5000 false None None in
  let s' := finalState (run (loadTimerFromBackend "user" (Resolved (Some td))
                               1000) (initialState 0)) in
  elapsedSeconds s' = -4
  /\ elapsedSeconds s' < 0
  /\ fst (fst (timerFields (elapsedSeconds s'))) < 0.
Proof.
  apply (load_future_start_shows_negative "user" (initialState 0)
           (mkTimerData 5000 false None None) 1000);
    [reflexivity | vm_compute; discriminate].
Defined.

(** X17: while the interval runs, each tick shows the whole seconds from the
    start time to the clock.  With a clock that does not run backwards
    the seconds shown are never negative and never decrease from one
    tick to the next, and a tick exactly one second after another shows
    one second more. *)
Theorem ticks_count_up (uid : string) (sys : Sys) (t0 now1 now2 : Date) :
  mounted sys = true ->
  interval sys = Some t0 ->
  valueOf t0 <= valueOf now1 ->
  valueOf now1 <= valueOf now2 ->
  let sys1 := step uid sys (ActTick now1) in
  let sys2 := step uid sys1 (ActTick now2) in
  elapsedSeconds (component sys1) = (valueOf now1 - valueOf t0) / 1000
  /\ 0 <= elapsedSeconds (component sys1) <= elapsedSeconds (component sys2)
  /\ (valueOf now2 = valueOf now1 + 1000 ->
      elapsedSeconds (component sys2) = elapsedSeconds (component sys1) + 1).
Proof.
  intros Hm Hi H1 H2. cbv zeta.
  destruct (step_tick_running uid sys t0 now1 Hm Hi) as (E1 & I1 & M1).
  destruct (step_tick_running uid _ t0 now2 M1 I1) as (E2 & _ & _).
  rewrite E1, E2.
  unfold differenceInSeconds, differenceInMilliseconds, msPerSecond,
    valueOf in *.
  rewrite !Z.quot_div_nonneg by lia.
  split; [reflexivity | split; [| intros K; rewrite K]].
  - Z.to_euclidean_division_equations; lia.
  - Z.to_euclidean_division_equations; lia.
Qed.

Lemma ticks_count_up_witness :
  let sys := steps "user" (mount 0) [ActStart 1000 ok] in
  let sys1 := step "user" sys (ActTick 61500) in
  let sys2 := step "user" sys1 (ActTick 62500) in
  elapsedSeconds (component sys1) = 60
  /\ 0 <= elapsedSeconds (component sys1) <= elapsedSeconds (component sys2)
  /\ (62500 = 61500 + 1000 ->
      elapsedSeconds (component sys2) = elapsedSeconds (component sys1) + 1).
Proof.
  apply (ticks_count_up "user" (steps "user" (mount 0) [ActStart 1000 ok])
           1000 61500 62500);
    try reflexivity; vm_compute; discriminate.
Defined.

(** X18: after a stop whose [deleteTimer] failed the timer is still on the
    page, and stopping it again hands the same fast over a second time:
    the history store receives two fasts with the same start time. *)
Theorem stop_retry_hands_over_twice (uid : string) (sys : Sys)
    (t t1 t2 : Date) (e : Error) :
  mounted sys = true ->
  isTimerActive (component sys) = true ->
  timerStartTime (component sys) = Some t ->
  let sys' := steps uid sys [ActStop t1 ok (Rejected e); ActStop t2 ok ok] in
  fastsAdded (history sys')
  = fastsAdded (history sys)
    ++ [(t, t1, timerNotes (component sys));
        (t, t2, timerNotes (component sys))]
  /\ isTimerActive (component sys') = false.
Proof.
  intros Hm Ha Ht. cbv zeta. unfold steps. cbn [fold_left].
  assert (step uid sys (ActStop t1 ok (Rejected e))
          = runHandler
              (handleStopTimer uid (component sys) t1 ok (Rejected e)) sys)
    as ->.
  { unfold step. cbn [offered]. rewrite Hm, Ha. reflexivity. }
  set (sys1 := runHandler _ sys).
  assert (component sys1 = applySetter (setIsLoading false) (component sys))
    as C1.
  { unfold sys1, runHandler, handleStopTimer. rewrite Ht. reflexivity. }
  assert (fastsAdded (history sys1)
          = fastsAdded (history sys) ++ [(t, t1, timerNotes (component sys))])
    as F1.
  { unfold sys1, runHandler, handleStopTimer, commit. rewrite Ht.
    cbn [history]. rewrite fastsAdded_app. reflexivity. }
  assert (step uid sys1 (ActStop t2 ok ok)
          = runHandler (handleStopTimer uid (component sys1) t2 ok ok) sys1)
    as ->.
  { unfold step. cbn [offered]. rewrite C1. cbn. rewrite Ha. reflexivity. }
  unfold runHandler at 1 2. unfold handleStopTimer. rewrite C1.
  cbn [applySetter timerStartTime]. rewrite Ht.
  unfold commit. cbn [component history]. rewrite fastsAdded_app, F1.
  split; [| reflexivity].
  rewrite <- app_assoc. reflexivity.
Qed.

Lemma stop_retry_hands_over_twice_witness :
  let sys := steps "user" (mount 0) [ActStart 1000 ok] in
  let sys' := steps "user" sys [ActStop 5000 ok failed; ActStop 6000 ok ok] in
  fastsAdded (history sys')
  = [(1000, 5000, ""%string); (1000, 6000, ""%string)]
  /\ isTimerActive (component sys') = false.
Proof.
  apply (stop_retry_hands_over_twice "user"
           (steps "user" (mount 0) [ActStart 1000 ok]) 1000 5000 6000
           "backend unavailable"%string);
    vm_compute; reflexivity.
Defined.
